(** * Signing and attestation persistence: a shallow embedding

    Two Go files are embedded here:
    - [vendor/github.com/sigstore/sigstore/pkg/signature/kms/azure/signer.go]
      (module [Azure]): the KMS-backed signer/verifier and its conversion
      between the raw [r || s] signature and ASN.1 DER;
    - [pkg/chains/storage/tekton/tekton.go] (module [Tekton]): the storage
      backend that keeps payload, signature, certificate and chain as
      base64 annotations of a TaskRun.

    Byte strings are [list byte]; Go integers are [Z] with their wrap-around
    written out; Go's [(value, error)] results are the sum [Result]; calls
    that leave the process (the KMS client, the Kubernetes client) are
    recorded in a call log returned next to the result. *)

From Stdlib Require Import ZArith List Lia Bool String Ascii ZifyBool.
From Stdlib.Strings Require Import Byte.
From stdpp Require Import gmap strings list.
Import ListNotations.

Local Open Scope Z_scope.

(** ** Common data *)

Definition bytes := list byte.

(** [uint(b)] of a byte. *)
Definition byteZ (b : byte) : Z := Z.of_N (Byte.to_N b).

(** [uint8(z)]: conversion to a byte truncates to the low eight bits. *)
Definition Zbyte (z : Z) : byte :=
  match Byte.of_N (Z.to_N (z mod 256)) with
  | Some b => b
  | None => x00
  end.

(** Go's [(v, err)] pair where exactly one side is meaningful. *)
Inductive Result (E A : Type) : Type :=
| Ok (v : A)
| Err (e : E).
Arguments Ok {E A} v.
Arguments Err {E A} e.

Definition isOk {E A} (r : Result E A) : bool :=
  match r with Ok _ => true | Err _ => false end.

(** [context.Context] values: the two empty contexts the standard library
    hands out, and contexts a caller derived (with a deadline or a cancel
    function), told apart by an identifier. *)
Inductive Context : Type :=
| Background
| TODO
| CallerCtx (id : nat).

(** ** math/big: the part of [big.Int] the signer uses *)

Module big.

(** A [big.Int] is an integer of any size. *)
Definition Int := Z.

(** [z.SetBytes(buf)]: [buf] read as a big-endian unsigned integer. *)
Definition SetBytes (buf : bytes) : Int :=
  fold_left (fun acc b => acc * 256 + byteZ b) buf 0.

(** Big-endian digits of [n] in base 256, most significant first, pushed
    in front of [acc]; [fuel] bounds the number of digits. *)
Fixpoint natBytes (fuel : nat) (n : Z) (acc : bytes) : bytes :=
  match fuel with
  | O => acc
  | S fuel' =>
      if n =? 0 then acc
      else natBytes fuel' (n / 256) (Zbyte n :: acc)
  end.

(** [x.Bytes()]: the absolute value of [x] as a big-endian byte slice,
    without leading zero bytes (empty for zero). *)
Definition Bytes (x : Int) : bytes :=
  natBytes (S (Z.to_nat (Z.log2 (Z.abs x)))) (Z.abs x) [].

(** [x.Sign()]. *)
Definition Sign (x : Int) : Z := Z.sgn x.

End big.

(** ** golang.org/x/crypto/cryptobyte *)

Module asn1.
(** [asn1.Tag] values used by the signer. *)
Definition INTEGER : byte := x02.
Definition SEQUENCE : byte := x30.
End asn1.

Module cryptobyte.

Inductive BuildError : Type :=
| ErrHighTagNumber (tag : byte)
| ErrChildTooLong.

(** Modelled from the spec: package golang.org/x/crypto/cryptobyte is
    vendored next to signer.go but is not under src/. The spec asks for
    "ASN.1 DER SEQUENCE { INTEGER r, INTEGER s }"; the builder below lays
    a DER element out as the library does: identifier octet, definite
    length in the fewest octets, contents. A [Builder] is the bytes
    written so far, or the first error met. *)
Record Builder : Type := mkBuilder {
  err : option BuildError;
  result : bytes
}.

Definition newBuilder : Builder := mkBuilder None [].

(** [b.add(bytes...)]. *)
Definition add (bs : bytes) (b : Builder) : Builder :=
  match err b with
  | Some _ => b
  | None => mkBuilder None (result b ++ bs)
  end.

(** Modelled from the spec: the DER length octets that the library's
    flushChild writes for a pending ASN.1 child of [length] bytes: short
    form up to 0x7f, otherwise 0x80|k followed by the k big-endian octets
    of the length; more than 0xfffffffe bytes is an error. *)
Definition asn1Length (length : Z) : option bytes :=
  if 0xfffffffe <? length then None
  else if 0xffffff <? length then
    Some [x84; Zbyte (Z.shiftr length 24); Zbyte (Z.shiftr length 16);
          Zbyte (Z.shiftr length 8); Zbyte length]
  else if 0xffff <? length then
    Some [x83; Zbyte (Z.shiftr length 16); Zbyte (Z.shiftr length 8);
          Zbyte length]
  else if 0xff <? length then
    Some [x82; Zbyte (Z.shiftr length 8); Zbyte length]
  else if 0x7f <? length then
    Some [x81; Zbyte length]
  else Some [Zbyte length].

(** Modelled from the spec: [b.AddASN1(tag, f)] of the missing library:
    the identifier octet, then the contents that [f] writes into a child
    builder, prefixed by their DER length. *)
Definition AddASN1 (tag : byte) (f : Builder -> Builder) (b : Builder)
  : Builder :=
  match err b with
  | Some _ => b
  | None =>
      if Z.land (byteZ tag) 0x1f =? 0x1f
      then mkBuilder (Some (ErrHighTagNumber tag)) (result b)
      else
        let child := f newBuilder in
        match err child with
        | Some e => mkBuilder (Some e) (result b)
        | None =>
            match asn1Length (Z.of_nat (length (result child))) with
            | None => mkBuilder (Some ErrChildTooLong) (result b)
            | Some hdr =>
                mkBuilder None (result b ++ tag :: hdr ++ result child)
            end
        end
  end.

(** Contents octets of a DER INTEGER: the shortest two's-complement
    big-endian form of [n]. *)
Definition bigIntContents (n : big.Int) : bytes :=
  if big.Sign n <? 0 then
    let bs := map (fun b => Zbyte (Z.lxor (byteZ b) 0xff))
                  (big.Bytes (Z.opp n - 1)) in
    match bs with
    | [] => [xff]
    | b0 :: _ => if Z.land (byteZ b0) 0x80 =? 0 then xff :: bs else bs
    end
  else if big.Sign n =? 0 then [x00]
  else
    let bs := big.Bytes n in
    match bs with
    | [] => bs
    | b0 :: _ => if negb (Z.land (byteZ b0) 0x80 =? 0) then x00 :: bs else bs
    end.

(** Modelled from the spec: [b.AddASN1BigInt(n)] of the missing library,
    an INTEGER element holding [n]. *)
Definition AddASN1BigInt (n : big.Int) (b : Builder) : Builder :=
  match err b with
  | Some _ => b
  | None => AddASN1 asn1.INTEGER (add (bigIntContents n)) b
  end.

(** [b.Bytes()]. *)
Definition Bytes (b : Builder) : Result BuildError bytes :=
  match err b with
  | Some e => Err e
  | None => Ok (result b)
  end.

(** [s.readUnsigned(&out, length)] on the first [length] bytes: a
    big-endian [uint32]. *)
Definition readUnsigned (v : bytes) : Z :=
  fold_left (fun acc b => Z.lor (Z.shiftl acc 8 mod 2 ^ 32) (byteZ b)) v 0.

(** Modelled from the spec: the first half of the library's [readASN1],
    which reads the identifier and length octets of [s]. The spec's
    "strictly as DER" is X.690 DER: a single identifier octet, and a
    definite length in the fewest octets. The result is the length of the
    whole element (header included, a [uint32]) and the length of its
    header. *)
Definition asn1Header (s : bytes) : option (Z * Z) :=
  match s with
  | tag :: lenByte :: _ =>
      if Z.land (byteZ tag) 0x1f =? 0x1f then None
      else if Z.land (byteZ lenByte) 0x80 =? 0 then
        Some (byteZ lenByte + 2, 2)
      else
        let lenLen := Z.land (byteZ lenByte) 0x7f in
        if (lenLen =? 0) || (4 <? lenLen)
           || (Z.of_nat (length s) <? 2 + lenLen)
        then None
        else
          let len32 :=
            readUnsigned (firstn (Z.to_nat lenLen) (skipn 2 s)) in
          if len32 <? 128 then None
          else if Z.shiftr len32 ((lenLen - 1) * 8) =? 0 then None
          else
            let headerLen := 2 + lenLen in
            if (headerLen + len32) mod 2 ^ 32 <? len32 then None
            else Some ((headerLen + len32) mod 2 ^ 32, headerLen)
  | _ => None
  end.

(** Modelled from the spec: the library's [readASN1] with the header
    skipped: once the header is read, the element's bytes are taken off
    the input. On success the result is the tag, the contents and the
    unread rest of the input. *)
Definition readASN1 (s : bytes) : option (byte * bytes * bytes) :=
  match s, asn1Header s with
  | tag :: _, Some (len, headerLen) =>
      if Z.of_nat (length s) <? len then None
      else
        let out := firstn (Z.to_nat len) s in
        Some (tag, skipn (Z.to_nat headerLen) out, skipn (Z.to_nat len) s)
  | _, _ => None
  end.

(** [s.ReadASN1(&out, tag)]: the next element, which must carry [tag]. *)
Definition ReadASN1 (s : bytes) (tag : byte) : option (bytes * bytes) :=
  match readASN1 s with
  | Some (t, out, rest) =>
      if byteZ t =? byteZ tag then Some (out, rest) else None
  | None => None
  end.

(** [checkASN1Integer]: at least one octet, and no redundant leading
    0x00 or 0xff octet. *)
Definition checkASN1Integer (bs : bytes) : bool :=
  match bs with
  | [] => false
  | [_] => true
  | b0 :: b1 :: _ =>
      negb (((byteZ b0 =? 0) && (Z.land (byteZ b1) 0x80 =? 0))
            || ((byteZ b0 =? 0xff) && (Z.land (byteZ b1) 0x80 =? 0x80)))
  end.

(** Modelled from the spec: [s.ReadASN1Integer(out)] for [out : *big.Int]
    of the missing library: an INTEGER element in its shortest
    two's-complement form, read as a signed integer. *)
Definition ReadASN1Integer (s : bytes) : option (big.Int * bytes) :=
  match ReadASN1 s asn1.INTEGER with
  | None => None
  | Some (bs, rest) =>
      if checkASN1Integer bs then
        match bs with
        | b0 :: _ =>
            if Z.land (byteZ b0) 0x80 =? 0x80 then
              let neg := map (fun b => Zbyte (Z.lxor (byteZ b) 0xff)) bs in
              Some (Z.opp (big.SetBytes neg + 1), rest)
            else Some (big.SetBytes bs, rest)
        | [] => None
        end
      else None
  end.

(** [s.Empty()]. *)
Definition Empty (s : bytes) : bool :=
  match s with [] => true | _ => false end.

End cryptobyte.

(** ** crypto: hash identifiers *)

Module crypto.

(** [crypto.Hash] is an unsigned integer naming a hash function; the
    zero value names none. *)
Definition Hash := N.

Definition SHA224 : Hash := 4%N.
Definition SHA256 : Hash := 5%N.
Definition SHA384 : Hash := 6%N.
Definition SHA512 : Hash := 7%N.

(** [digestSizes], indexed by the hash identifier. *)
Definition digestSizes : list Z :=
  [0; 16; 16; 20; 28; 32; 48; 64; 36; 20; 28; 32; 48; 64; 28; 32; 32; 32;
   48; 64].

(** [h.Size()]; Go panics outside the table, which no caller below
    reaches (the hash is checked against the supported list first). *)
Definition Size (h : Hash) : Z := nth (N.to_nat h) digestSizes 0.

End crypto.

(** ** The Azure signer (signer.go) *)

Module Azure.

Import crypto.

Definition PublicKey := bytes.

(** Errors of the signer, one constructor per place an error is made. *)
Inductive Error : Type :=
| ErrHashNotSupported                 (* LoadSignerVerifier, default case *)
| ErrUnsupportedHashAlgorithm (h : Hash)
| ErrUnexpectedDigestLength
| ErrMessageNil
| ErrReadingSignature (cause : string)
| ErrParsingSignature                 (* errors.New("parsing signature") *)
| ErrBuilder (e : cryptobyte.BuildError)
| ErrIO (cause : string)              (* a reader that fails *)
| ErrBackend (cause : string).        (* whatever the KMS client reports *)

(** An [io.Reader]: one that yields [data] and then EOF, or one that
    fails. A nil reader is [None] where the code accepts one. *)
Inductive Reader : Type :=
| ReaderOf (data : bytes)
| BrokenReader (cause : string).

(** [io.ReadAll]. *)
Definition ReadAll (r : Reader) : Result string bytes :=
  match r with
  | ReaderOf data => Ok data
  | BrokenReader cause => Err cause
  end.

(** The options of package [options] that the signer can be handed; they
    serve as [signature.SignOption] and as [signature.VerifyOption]. An
    option leaves alone whatever it does not set. *)
Inductive RPCOption : Type :=
| WithContext (ctx : Context)
| WithDigest (digest : bytes)
| WithCryptoSignerOpts (h : Hash)
| NoOption.

Definition ApplyContext (opt : RPCOption) (ctx : Context) : Context :=
  match opt with WithContext c => c | _ => ctx end.

Definition ApplyDigest (opt : RPCOption) (digest : bytes) : bytes :=
  match opt with WithDigest d => d | _ => digest end.

Definition ApplyCryptoSignerOpts (opt : RPCOption) (h : Hash) : Hash :=
  match opt with WithCryptoSignerOpts h' => h' | _ => h end.

(** Modelled from the spec: the client of client.go (same directory, not
    under src/), at the interface the spec gives the key-management
    backend: "Sign(ctx, digestBytes) -> rawSignatureBytes; Verify(ctx,
    rawSignatureBytes, digestBytes) -> error-or-nil; PublicKeyExport(ctx)
    -> publicKeyBytes; CreateKey(ctx) -> publicKeyBytes". What the
    backend answers is left open: each field is its answer. *)
Record azureVaultClient : Type := {
  sign : Context -> bytes -> Result Error bytes;
  verify : Context -> bytes -> bytes -> option Error;
  public : Result Error PublicKey;
  createKey : Context -> Result Error PublicKey
}.

(** A call that reached the KMS client, with its arguments. *)
Inductive KmsCall : Type :=
| CallSign (ctx : Context) (digest : bytes)
| CallVerify (ctx : Context) (rawSig digest : bytes)
| CallPublic
| CallCreateKey (ctx : Context).

Definition azureSupportedHashFuncs : list Hash := [SHA256].

Definition Algorithm_ES256 : string := "ES256".

Definition azureSupportedAlgorithms : list string := [Algorithm_ES256].

Record SignerVerifier : Type := {
  defaultCtx : Context;
  hashFunc : Hash;
  client : azureVaultClient
}.

(** Lines 115-128 of SignMessage: the raw signature is cut in two halves,
    each read as an unsigned big-endian integer, and the two integers
    are written as a DER SEQUENCE of two INTEGERs. *)
Definition derFromRaw (rawSig : bytes) : Result cryptobyte.BuildError bytes :=
  let l := length rawSig in
  let r := big.SetBytes (firstn (l / 2) rawSig) in
  let s := big.SetBytes (skipn (l / 2) rawSig) in
  cryptobyte.Bytes
    (cryptobyte.AddASN1 asn1.SEQUENCE
       (fun b => cryptobyte.AddASN1BigInt s (cryptobyte.AddASN1BigInt r b))
       cryptobyte.newBuilder).

(** Lines 162-173 of VerifySignature: the five-step parse; any step
    that fails makes the whole parse fail. *)
Definition parseSignature (sigBytes : bytes) : option (big.Int * big.Int) :=
  match cryptobyte.ReadASN1 sigBytes asn1.SEQUENCE with
  | None => None
  | Some (inner, input) =>
      if negb (cryptobyte.Empty input) then None
      else
        match cryptobyte.ReadASN1Integer inner with
        | None => None
        | Some (r, inner1) =>
            match cryptobyte.ReadASN1Integer inner1 with
            | None => None
            | Some (s, inner2) =>
                if negb (cryptobyte.Empty inner2) then None
                else Some (r, s)
            end
        end
  end.

(** Lines 162-177 of VerifySignature: parse, then append the bytes of
    [r] and the bytes of [s]. *)
Definition rawFromDER (sigBytes : bytes) : option bytes :=
  match parseSignature sigBytes with
  | None => None
  | Some (r, s) => Some (([] ++ big.Bytes r) ++ big.Bytes s)
  end.

Section Signer.

(** The hash functions themselves ([h.New()] then [Sum]) and the
    construction of the KMS client are outside the two files. *)
Variable hashSum : Hash -> bytes -> bytes.
Variable newAzureKMS : Context -> string -> Result Error azureVaultClient.

Definition isSupportedAlg (alg : Hash) (supportedAlgs : list Hash) : bool :=
  existsb (N.eqb alg) supportedAlgs.

(** Modelled from the spec: [hashMessage] of message.go in package
    signature (not under src/): "a readable message stream to be
    digested using the active hash algorithm". *)
Definition hashMessage (rawMessage : option Reader) (h : Hash)
  : Result Error bytes :=
  match rawMessage with
  | None => Err ErrMessageNil
  | Some rd =>
      match ReadAll rd with
      | Err cause => Err (ErrIO cause)
      | Ok data => if (h =? 0)%N then Ok data else Ok (hashSum h data)
      end
  end.

(** Modelled from the spec: [ComputeDigestForSigning] and
    [ComputeDigestForVerifying] of message.go in package signature
    (not under src/). The spec: "Accepts either a pre-computed digest
    (via an explicit option) or a readable message stream to be
    digested using the active hash algorithm (option-overridable per
    call, defaulting to the instance's configured algorithm)";
    "digest length must match the expected output size for the active
    hash algorithm"; a hash "not in the backend's supported set" is
    "rejected before any network call". *)
Definition ComputeDigest (rawMessage : option Reader) (defaultHashFunc : Hash)
    (supportedHashFuncs : list Hash) (opts : list RPCOption)
  : Result Error (bytes * Hash) :=
  let digest := fold_left (fun d o => ApplyDigest o d) opts [] in
  let hashedWith :=
    fold_left (fun h o => ApplyCryptoSignerOpts o h) opts defaultHashFunc in
  if negb (isSupportedAlg hashedWith supportedHashFuncs)
  then Err (ErrUnsupportedHashAlgorithm hashedWith)
  else if (0 <? length digest)%nat then
    if negb (hashedWith =? 0)%N
       && negb (Z.of_nat (length digest) =? Size hashedWith)
    then Err ErrUnexpectedDigestLength
    else Ok (digest, hashedWith)
  else
    match hashMessage rawMessage hashedWith with
    | Err e => Err e
    | Ok d => Ok (d, hashedWith)
    end.

Definition ComputeDigestForSigning := ComputeDigest.
Definition ComputeDigestForVerifying := ComputeDigest.

Definition LoadSignerVerifier (defaultCtx : Context) (referenceStr : string)
    (hashFunc : Hash) : Result Error SignerVerifier :=
  match newAzureKMS defaultCtx referenceStr with
  | Err e => Err e
  | Ok c =>
      if (hashFunc =? 0)%N || (hashFunc =? SHA224)%N
         || (hashFunc =? SHA256)%N || (hashFunc =? SHA384)%N
         || (hashFunc =? SHA512)%N
      then Ok {| defaultCtx := defaultCtx; hashFunc := hashFunc; client := c |}
      else Err ErrHashNotSupported
  end.

(** [SignMessage]. [ctx] is [context.Background()] and no option is
    asked for a context; the first loop's [digest] is overwritten by
    the digest computation, its [signerOpts] is what the computation
    gets as default hash. *)
Definition SignMessage (a : SignerVerifier) (message : option Reader)
    (opts : list RPCOption) : Result Error bytes * list KmsCall :=
  let ctx := Background in
  let signerOpts :=
    fold_left (fun h o => ApplyCryptoSignerOpts o h) opts (hashFunc a) in
  match ComputeDigestForSigning message signerOpts azureSupportedHashFuncs opts with
  | Err e => (Err e, [])
  | Ok (digest, _) =>
      match sign (client a) ctx digest with
      | Err e => (Err e, [CallSign ctx digest])
      | Ok rawSig =>
          (match derFromRaw rawSig with
           | Ok der => Ok der
           | Err e => Err (ErrBuilder e)
           end, [CallSign ctx digest])
      end
  end.

(** [Sign], the method kept for older callers. *)
Definition Sign (a : SignerVerifier) (ctx : Context) (payload : bytes)
  : Result Error bytes * list KmsCall :=
  SignMessage a (Some (ReaderOf payload)) [WithContext ctx].

(** [VerifySignature]: [None] is Go's nil error. The loop over the
    options only applies digests; [signerOpts] stays the instance's
    hash. *)
Definition VerifySignature (a : SignerVerifier) (sig : Reader)
    (message : option Reader) (opts : list RPCOption)
  : option Error * list KmsCall :=
  let ctx := Background in
  let signerOpts := hashFunc a in
  match ComputeDigestForVerifying message signerOpts azureSupportedHashFuncs opts with
  | Err e => (Some e, [])
  | Ok (digest, _) =>
      match ReadAll sig with
      | Err cause => (Some (ErrReadingSignature cause), [])
      | Ok sigBytes =>
          match rawFromDER sigBytes with
          | None => (Some ErrParsingSignature, [])
          | Some rawSigBytes =>
              (verify (client a) ctx rawSigBytes digest,
               [CallVerify ctx rawSigBytes digest])
          end
      end
  end.

Definition PublicKey_ (a : SignerVerifier)
  : Result Error PublicKey * list KmsCall :=
  (public (client a), [CallPublic]).

(** [CreateKey]: the [algorithm] argument is not used. *)
Definition CreateKey (a : SignerVerifier) (ctx : Context) (algorithm : string)
  : Result Error PublicKey * list KmsCall :=
  (createKey (client a) ctx, [CallCreateKey ctx]).

Definition SupportedAlgorithms (a : SignerVerifier) : list string :=
  azureSupportedAlgorithms.

Definition DefaultAlgorithm (a : SignerVerifier) : string :=
  Algorithm_ES256.

(** [cryptoSignerWrapper], the [crypto.Signer] over a SignerVerifier.
    [errFunc] may be nil: the field says whether a handler was given,
    and the errors handed to it are returned by [Public]. *)
Record cryptoSignerWrapper : Type := {
  wrapperCtx : Context;
  wrapperHashFunc : Hash;
  sv : SignerVerifier;
  errFunc : bool
}.

(** [c.Public()]: the key (nil when the backend gave an error), the
    errors handed to [errFunc], and the calls to the backend. *)
Definition cryptoSignerWrapper_Public (c : cryptoSignerWrapper)
  : option PublicKey * list Error * list KmsCall :=
  match PublicKey_ (sv c) with
  | (Ok pk, calls) => (Some pk, [], calls)
  | (Err e, calls) => (None, if errFunc c then [e] else [], calls)
  end.

(** [c.Sign(rand, digest, opts)]: [rand] is not used, and a nil [opts]
    ([None]) leaves the wrapper's hash. *)
Definition cryptoSignerWrapper_Sign (c : cryptoSignerWrapper)
    (rand : option Reader) (digest : bytes) (opts : option Hash)
  : Result Error bytes * list KmsCall :=
  let hashFunc :=
    match opts with
    | Some h => h
    | None => wrapperHashFunc c
    end in
  let gcpOptions :=
    [WithContext (wrapperCtx c); WithDigest digest;
     WithCryptoSignerOpts hashFunc] in
  SignMessage (sv c) None gcpOptions.

(** [CryptoSigner]: the wrapper and the signer's hash; the error is
    always nil. *)
Definition CryptoSigner (a : SignerVerifier) (ctx : Context) (errFunc : bool)
  : Result Error (cryptoSignerWrapper * Hash) :=
  Ok ({| wrapperCtx := ctx; wrapperHashFunc := hashFunc a; sv := a;
         errFunc := errFunc |}, hashFunc a).

End Signer.

End Azure.

(** ** encoding/base64: [base64.StdEncoding] *)

Module base64.

(** The standard alphabet, [encodeStd]. *)
Definition encodeStd : bytes :=
  list_byte_of_string
    "ABCDEFGHIJKLMNOPQRSTUVWXYZabcdefghijklmnopqrstuvwxyz0123456789+/".

(** [StdPadding], the character '='. *)
Definition padChar : byte := x3d.

Definition encodeChar (v : Z) : byte := nth (Z.to_nat v) encodeStd x00.

Fixpoint indexOf (c : byte) (l : bytes) (i : Z) : option Z :=
  match l with
  | [] => None
  | x :: l' => if Byte.eqb x c then Some i else indexOf c l' (i + 1)
  end.

(** [enc.decodeMap]: the position of a character in the alphabet;
    [None] stands for the 0xff entries. *)
Definition decodeMap (c : byte) : option Z := indexOf c encodeStd 0.

Definition sextet (val shift : Z) : byte :=
  encodeChar (Z.land (Z.shiftr val shift) 0x3f).

(** [enc.Encode]: three source bytes give four characters; a remainder
    of one or two bytes is padded with '='. *)
Fixpoint Encode (src : bytes) : bytes :=
  match src with
  | [] => []
  | [a] =>
      let val := Z.shiftl (byteZ a) 16 in
      [sextet val 18; sextet val 12; padChar; padChar]
  | [a; b] =>
      let val := Z.lor (Z.shiftl (byteZ a) 16) (Z.shiftl (byteZ b) 8) in
      [sextet val 18; sextet val 12; sextet val 6; padChar]
  | a :: b :: c :: rest =>
      let val := Z.lor (Z.lor (Z.shiftl (byteZ a) 16) (Z.shiftl (byteZ b) 8))
                       (byteZ c) in
      sextet val 18 :: sextet val 12 :: sextet val 6 :: sextet val 0
        :: Encode rest
  end.

Definition EncodeToString (src : bytes) : string :=
  string_of_list_byte (Encode src).

(** [base64.CorruptInputError]: the offset of the offending byte. *)
Inductive CorruptInputError : Type :=
| CorruptInput (offset : nat).

Definition isNewline (c : byte) : bool := Byte.eqb c x0a || Byte.eqb c x0d.

(** Skip '\n' and '\r'; [si] is the offset of the head of [src]. *)
Fixpoint skipNewlines (src : bytes) (si : nat) : bytes * nat :=
  match src with
  | c :: rest => if isNewline c then skipNewlines rest (S si) else (src, si)
  | [] => ([], si)
  end.

(** The bytes of a quantum of [dlen] six-bit values [dbuf] (the missing
    ones are zero): [dlen - 1] bytes. *)
Definition quantumBytes (dbuf : list Z) : bytes :=
  let d i := nth i dbuf 0 in
  let val := Z.lor (Z.lor (Z.lor (Z.shiftl (d 0%nat) 18) (Z.shiftl (d 1%nat) 12))
                          (Z.shiftl (d 2%nat) 6)) (d 3%nat) in
  firstn (length dbuf - 1)
    [Zbyte (Z.shiftr val 16); Zbyte (Z.shiftr val 8); Zbyte val].

(** [enc.Decode] for the padded, non-strict standard encoding, as the
    repetition of [decodeQuantum]: [src] is the input still to read,
    [si] its offset, [dbuf] the six-bit values of the quantum being
    read and [total] the length of the whole input. Newlines are
    skipped, padding may only end the input, and an input that stops
    inside a quantum is corrupt. *)
Fixpoint decodeFrom (src : bytes) (si : nat) (dbuf : list Z) (total : nat)
  : Result CorruptInputError bytes :=
  match src with
  | [] =>
      match dbuf with
      | [] => Ok []
      | _ => Err (CorruptInput (si - length dbuf))
      end
  | c :: rest =>
      match decodeMap c with
      | Some v =>
          if (length dbuf =? 3)%nat then
            match decodeFrom rest (S si) [] total with
            | Ok out => Ok (quantumBytes (dbuf ++ [v]) ++ out)
            | Err e => Err e
            end
          else decodeFrom rest (S si) (dbuf ++ [v]) total
      | None =>
          if isNewline c then decodeFrom rest (S si) dbuf total
          else if negb (Byte.eqb c padChar) then Err (CorruptInput si)
          else
            match dbuf with
            | [] | [_] => Err (CorruptInput si)
            | [_; _] =>
                let '(rest1, si1) := skipNewlines rest (S si) in
                match rest1 with
                | [] => Err (CorruptInput total)
                | c1 :: rest2 =>
                    if negb (Byte.eqb c1 padChar)
                    then Err (CorruptInput (si1 - 1))
                    else
                      let '(rest3, si3) := skipNewlines rest2 (S si1) in
                      match rest3 with
                      | [] => Ok (quantumBytes dbuf)
                      | _ => Err (CorruptInput si3)
                      end
                end
            | _ =>
                let '(rest3, si3) := skipNewlines rest (S si) in
                match rest3 with
                | [] => Ok (quantumBytes dbuf)
                | _ => Err (CorruptInput si3)
                end
            end
      end
  end.

Definition DecodeString (s : string) : Result CorruptInputError bytes :=
  let src := list_byte_of_string s in
  decodeFrom src 0 [] (length src).

End base64.

(** ** fmt *)

Module fmt.

(** [fmt.Sprintf] for formats whose only verb is [%s], with string
    operands: every other character is copied. *)
Fixpoint Sprintf (format : string) (args : list string) : string :=
  match format with
  | EmptyString => EmptyString
  | String c rest =>
      if Ascii.eqb c "%" then
        match rest with
        | String v rest' =>
            if Ascii.eqb v "s" then
              match args with
              | a :: args' => a +:+ Sprintf rest' args'
              | [] => "%!s(MISSING)" +:+ Sprintf rest' []
              end
            else String c (String v (Sprintf rest' args))
        | EmptyString => "%!(NOVERB)"
        end
      else String c (Sprintf rest args)
  end.

End fmt.

(** ** The Tekton storage backend (tekton.go) *)

Module Tekton.

Definition StorageBackendTekton : string := "tekton".
Definition TaskRunAnnotationFormat : string := "chains.tekton.dev/taskrun-%s".
Definition AttestationAnnotationFormat : string :=
  "chains.tekton.dev/attestation-%s".
Definition SignatureAnnotationFormat : string :=
  "chains.tekton.dev/signature-%s".
Definition CertAnnotationsFormat : string := "chains.tekton.dev/cert-%s".
Definition ChainAnnotationFormat : string := "chains.tekton.dev/chain-%s".

(** [formats.PayloadType] is a string type. *)
Definition PayloadType := string.

(** [config.StorageOpts], declared in package config: the spec's
    "{key: string, cert: string, chain: string, payloadFormat}". *)
Record StorageOpts : Type := {
  Key : string;
  Cert : string;
  Chain : string;
  PayloadFormat : PayloadType
}.

(** The part of a [v1beta1.TaskRun] the backend touches. *)
Record TaskRun : Type := {
  Namespace : string;
  Name : string;
  Annotations : gmap string string
}.

Inductive PatchType : Type :=
| JSONPatchType
| MergePatchType
| StrategicMergePatchType.

(** A request that reached the resource store, with its arguments. *)
Inductive ApiCall : Type :=
| ApiGet (ctx : Context) (namespace name : string)
| ApiPatch (ctx : Context) (namespace name : string) (pt : PatchType)
           (annotations : gmap string string).

Inductive Error : Type :=
| ErrUnsupportedPayload (format : PayloadType)
| ErrMarshal (cause : string)
| ErrStore (cause : string)           (* returned as the client gave it *)
| ErrRetrievingTaskrun (cause : string)
| ErrDecodingAnnotation (annotationKey : string)
                        (cause : base64.CorruptInputError).

(** The error text names the annotation key: the [%q] operand of
    "error decoding the annotation value for the key %q: %s". *)
Definition errorNames (e : Error) (annotationKey : string) : Prop :=
  ∃ cause, e = ErrDecodingAnnotation annotationKey cause.

(** The resource store behind [versioned.Interface]: the TaskRuns it
    holds by (namespace, name), a policy by which it may refuse a
    request (permission, conflict, cancellation, ...), a policy by which
    the answer to a patch it has applied is lost on the way back
    (timeout, broken connection: the client gets an error although the
    patch took effect), and the log of the requests it received. *)
Record Cluster : Type := {
  taskruns : gmap (string * string) TaskRun;
  refuses : ApiCall → option string;
  loses : ApiCall → option string;
  requests : list ApiCall
}.

Definition received (call : ApiCall) (c : Cluster) : Cluster :=
  {| taskruns := taskruns c; refuses := refuses c; loses := loses c;
     requests := requests c ++ [call] |}.

(** [TaskRuns(ns).Get(ctx, name, opts)]. A Get changes nothing, so a
    Get whose answer is lost is a refused Get. *)
Definition Get (ctx : Context) (ns name : string) (c : Cluster)
  : Result string TaskRun * Cluster :=
  let call := ApiGet ctx ns name in
  let c' := received call c in
  match refuses c call with
  | Some cause => (Err cause, c')
  | None =>
      match taskruns c !! (ns, name) with
      | None => (Err "not found"%string, c')
      | Some tr => (Ok tr, c')
      end
  end.

(** [TaskRuns(ns).Patch(ctx, name, types.MergePatchType, patch, opts)]
    for a patch of the annotations: "keys present in the patch are
    set/overwritten; keys absent are left untouched". An error answer
    does not tell whether the patch was applied: the store may have
    refused it or not hold the record (nothing changes), or have applied
    it and lost the answer. *)
Definition Patch (ctx : Context) (ns name : string) (pt : PatchType)
    (patch : gmap string string) (c : Cluster)
  : Result string TaskRun * Cluster :=
  let call := ApiPatch ctx ns name pt patch in
  let c' := received call c in
  match refuses c call with
  | Some cause => (Err cause, c')
  | None =>
      match taskruns c !! (ns, name) with
      | None => (Err "not found"%string, c')
      | Some tr =>
          let tr' := {| Namespace := Namespace tr; Name := Name tr;
                        Annotations := patch ∪ Annotations tr |} in
          let c'' := {| taskruns := <[(ns, name) := tr']> (taskruns c');
                        refuses := refuses c'; loses := loses c';
                        requests := requests c' |} in
          match loses c call with
          | Some cause => (Err cause, c'')
          | None => (Ok tr', c'')
          end
      end
  end.

(** Modelled from the spec: [patch.GetAnnotationsPatch] of pkg/patch
    (not under src/) serializes "an object of shape
    {"metadata":{"annotations": {key: value, ...}}}"; the patch is kept
    here as that object's annotations, before serialization. *)
Definition GetAnnotationsPatch (newAnnotations : gmap string string)
  : Result Error (gmap string string) :=
  Ok newAnnotations.

(** A [Backend] holds the client, a logger and the TaskRun it was made
    for; the client is the [Cluster] threaded through the operations,
    and log lines are not modelled. *)
Record Backend : Type := {
  tr : TaskRun
}.

(** [NewStorageBackend(ps, logger, tr)]: the backend for [tr]. *)
Definition NewStorageBackend (tr : TaskRun) : Backend := {| tr := tr |}.

Definition encode (s : bytes) : string := base64.EncodeToString s.

Section Formats.

(** The payload types of package formats (not under src/): the native
    one and the attestation one. *)
Variables PayloadTypeTekton PayloadTypeInTotoIte6 : PayloadType.

Definition payloadKey (opts : StorageOpts) : Result Error string :=
  if String.eqb (PayloadFormat opts) PayloadTypeTekton then
    Ok (fmt.Sprintf TaskRunAnnotationFormat [Key opts])
  else if String.eqb (PayloadFormat opts) PayloadTypeInTotoIte6 then
    Ok (fmt.Sprintf AttestationAnnotationFormat [Key opts])
  else Err (ErrUnsupportedPayload (PayloadFormat opts)).

(** [StorePayload]: [None] is Go's nil error. *)
Definition StorePayload (b : Backend) (rawPayload : bytes)
    (signature : string) (opts : StorageOpts) (c : Cluster)
  : option Error * Cluster :=
  let patchMap : gmap string string :=
    <[fmt.Sprintf ChainAnnotationFormat [Key opts] :=
        encode (list_byte_of_string (Chain opts))]>
      (<[fmt.Sprintf CertAnnotationsFormat [Key opts] :=
           encode (list_byte_of_string (Cert opts))]>
         (<[fmt.Sprintf SignatureAnnotationFormat [Key opts] :=
              encode (list_byte_of_string signature)]> ∅)) in
  match payloadKey opts with
  | Err e => (Some e, c)
  | Ok payloadKey =>
      let patchMap := <[payloadKey := encode rawPayload]> patchMap in
      match GetAnnotationsPatch patchMap with
      | Err e => (Some e, c)
      | Ok patchBytes =>
          match Patch TODO (Namespace (tr b)) (Name (tr b)) MergePatchType
                      patchBytes c with
          | (Err cause, c') => (Some (ErrStore cause), c')
          | (Ok _, c') => (None, c')
          end
      end
  end.

Definition Type_ (b : Backend) : string := StorageBackendTekton.

Definition retrieveAnnotationValue (b : Backend) (annotationKey : string)
    (decode : bool) (c : Cluster) : Result Error string * Cluster :=
  match Get TODO (Namespace (tr b)) (Name (tr b)) c with
  | (Err cause, c') => (Err (ErrRetrievingTaskrun cause), c')
  | (Ok tr, c') =>
      match Annotations tr !! annotationKey with
      | Some rawAnnotationValue =>
          if decode then
            match base64.DecodeString rawAnnotationValue with
            | Err cause =>
                (Err (ErrDecodingAnnotation annotationKey cause), c')
            | Ok decodedAnnotation =>
                (Ok (string_of_list_byte decodedAnnotation), c')
            end
          else (Ok rawAnnotationValue, c')
      | None => (Ok ""%string, c')
      end
  end.

Definition RetrieveSignature (b : Backend) (opts : StorageOpts) (c : Cluster)
  : Result Error string * Cluster :=
  retrieveAnnotationValue b
    (fmt.Sprintf SignatureAnnotationFormat [Key opts]) true c.

Definition RetrievePayload (b : Backend) (opts : StorageOpts) (c : Cluster)
  : Result Error string * Cluster :=
  match payloadKey opts with
  | Err e => (Err e, c)
  | Ok payloadKey =>
      match retrieveAnnotationValue b payloadKey true c with
      | (Err e, c') => (Err e, c')
      | (Ok payload, c') => (Ok payload, c')
      end
  end.

End Formats.

End Tekton.

(** ** Vocabulary for the statements about the storage backend *)

Module TektonSpec.

Import Tekton.

(** The five annotation key formats. *)
Definition annotationFormats : list string :=
  [TaskRunAnnotationFormat; AttestationAnnotationFormat;
   SignatureAnnotationFormat; CertAnnotationsFormat; ChainAnnotationFormat].

(** What a format puts in front of the slot-key. *)
Definition formatPrefix (format : string) : string :=
  fmt.Sprintf format [""%string].

(** The three keys that do not depend on the payload format. *)
Definition signatureKey (opts : StorageOpts) : string :=
  fmt.Sprintf SignatureAnnotationFormat [Key opts].
Definition certKey (opts : StorageOpts) : string :=
  fmt.Sprintf CertAnnotationsFormat [Key opts].
Definition chainKey (opts : StorageOpts) : string :=
  fmt.Sprintf ChainAnnotationFormat [Key opts].

(** The annotations a StorePayload call asks the store to set. *)
Definition patchMapOf (rawPayload : bytes) (signature : string)
    (opts : StorageOpts) (payloadKey : string) : gmap string string :=
  <[payloadKey := encode rawPayload]>
    (<[chainKey opts := encode (list_byte_of_string (Chain opts))]>
       (<[certKey opts := encode (list_byte_of_string (Cert opts))]>
          (<[signatureKey opts := encode (list_byte_of_string signature)]> ∅))).

(** The requests that [c'] received after [c]. *)
Definition newRequests (c c' : Cluster) : list ApiCall :=
  skipn (length (requests c)) (requests c').

Definition callContext (call : ApiCall) : Context :=
  match call with
  | ApiGet ctx _ _ => ctx
  | ApiPatch ctx _ _ _ _ => ctx
  end.

Definition isPatch (call : ApiCall) : bool :=
  match call with
  | ApiPatch _ _ _ _ _ => true
  | ApiGet _ _ _ => false
  end.

(** A TaskRun with the given annotations, the backend made for it, and a
    store that holds just that TaskRun and refuses nothing. *)
Definition taskRun (ns name : string) (annotations : gmap string string)
  : TaskRun :=
  {| Namespace := ns; Name := name; Annotations := annotations |}.

Definition backendFor (ns name : string) : Backend :=
  {| tr := taskRun ns name ∅ |}.

Definition clusterWith (ns name : string) (annotations : gmap string string)
  : Cluster :=
  {| taskruns := {[ (ns, name) := taskRun ns name annotations ]};
     refuses := λ _, None;
     loses := λ _, None;
     requests := [] |}.

(** A store that holds the same TaskRun and answers every patch with
    "forbidden", as for a client that may only read. *)
Definition readOnlyCluster (ns name : string)
    (annotations : gmap string string) : Cluster :=
  {| taskruns := {[ (ns, name) := taskRun ns name annotations ]};
     refuses := λ call, if isPatch call then Some "forbidden"%string else None;
     loses := λ _, None;
     requests := [] |}.

(** A store that holds the same TaskRun and applies every patch, but
    whose answers to patches are lost: the client gets "timeout". *)
Definition lossyCluster (ns name : string)
    (annotations : gmap string string) : Cluster :=
  {| taskruns := {[ (ns, name) := taskRun ns name annotations ]};
     refuses := λ _, None;
     loses := λ call, if isPatch call then Some "timeout"%string else None;
     requests := [] |}.

(** The options of the end-to-end example, for a slot-key and a format. *)
Definition exampleOpts (key : string) (format : PayloadType) : StorageOpts :=
  {| Key := key; Cert := "C"; Chain := "K"; PayloadFormat := format |}.

End TektonSpec.

(** ** Vocabulary for the statements about the signer *)

Module AzureSpec.

Import Azure.

(** A byte string without its leading zero bytes. *)
Fixpoint stripLeadingZeros (bs : bytes) : bytes :=
  match bs with
  | b :: rest => if byteZ b =? 0 then stripLeadingZeros rest else bs
  | [] => []
  end.

(** The hashes that LoadSignerVerifier lets through. *)
Definition loadableHashFuncs : list crypto.Hash :=
  [0%N; crypto.SHA224; crypto.SHA256; crypto.SHA384; crypto.SHA512].

(** A byte string that does not begin with a zero byte. *)
Definition noLeadingZero (bs : bytes) : Prop :=
  match bs with
  | [] => True
  | b :: _ => byteZ b <> 0
  end.

(** The contents octets of the DER INTEGER whose magnitude is the byte
    string [bs], itself without leading zero: a zero octet goes in front
    when the first bit is set, and zero is one zero octet. *)
Definition integerContents (bs : bytes) : bytes :=
  match bs with
  | [] => [x00]
  | b0 :: _ => if Z.land (byteZ b0) 0x80 =? 0 then bs else x00 :: bs
  end.

(** The two halves of a raw signature, as SignMessage cuts it. *)
Definition firstHalf (rawSig : bytes) : bytes :=
  firstn (length rawSig / 2) rawSig.
Definition secondHalf (rawSig : bytes) : bytes :=
  skipn (length rawSig / 2) rawSig.

(** The context a call to the KMS client was given, if it takes one. *)
Definition kmsCallContext (call : KmsCall) : option Context :=
  match call with
  | CallSign ctx _ => Some ctx
  | CallVerify ctx _ _ => Some ctx
  | CallCreateKey ctx => Some ctx
  | CallPublic => None
  end.

(** A KMS client for examples: it answers every sign request with
    [rawSig], accepts every signature and hands out [key]. *)
Definition cannedClient (rawSig : bytes) (key : PublicKey)
  : azureVaultClient :=
  {| sign := fun _ _ => Ok rawSig;
     verify := fun _ _ _ => None;
     public := Ok key;
     createKey := fun _ => Ok key |}.

Definition cannedKMS (rawSig : bytes) (key : PublicKey)
  : Context -> string -> Result Error azureVaultClient :=
  fun _ _ => Ok (cannedClient rawSig key).

(** A stand-in for the hash functions in examples: the message cut or
    zero-padded to the digest size of the hash. *)
Definition exampleHash (h : crypto.Hash) (data : bytes) : bytes :=
  let size := Z.to_nat (crypto.Size h) in
  firstn size (data ++ repeat x00 size).

(** A signer over the canned client with the given hash. *)
Definition exampleSigner (rawSig : bytes) (h : crypto.Hash) : SignerVerifier :=
  {| defaultCtx := Background; hashFunc := h;
     client := cannedClient rawSig [] |}.

(** The outcome of a verification that stopped with an error before any
    call to the KMS client. *)
Definition failsWithoutBackendCall (res : option Error * list KmsCall)
  : Prop :=
  (exists e, fst res = Some e) /\ snd res = [].

(** The raw signature [00 01 00 02] (r = 1, s = 2 on two bytes each) and
    its DER form. *)
Definition rawExample : bytes := [x00; x01; x00; x02].
Definition derExample : bytes := [x30; x06; x02; x01; x01; x02; x01; x02].

End AzureSpec.

(** * Properties of the storage backend *)

Module TektonProofs.

Import Tekton TektonSpec.

Lemma string_app_nil_r (s : string) : s +:+ "" = s.
Proof.
  induction s as [|a s IH]; [reflexivity | exact (f_equal (String a) IH)].
Qed.

Lemma append_cons a s1 s2 : String a s1 +:+ s2 = String a (s1 +:+ s2).
Proof. reflexivity. Qed.

Lemma append_nil s : "" +:+ s = s.
Proof. reflexivity. Qed.

Lemma in_annotationFormats format :
  format ∈ annotationFormats ↔
  format = TaskRunAnnotationFormat ∨ format = AttestationAnnotationFormat
  ∨ format = SignatureAnnotationFormat ∨ format = CertAnnotationsFormat
  ∨ format = ChainAnnotationFormat.
Proof.
  unfold annotationFormats. rewrite !elem_of_cons, elem_of_nil. tauto.
Qed.

(** A key is the format's prefix followed by the slot-key. *)
Lemma Sprintf_prefix format k :
  format ∈ annotationFormats →
  fmt.Sprintf format [k] = formatPrefix format +:+ k.
Proof.
  intros [->|[->|[->|[->| ->]]]]%in_annotationFormats;
    cbn; rewrite string_app_nil_r; reflexivity.
Qed.

(** One format, two slot-keys: two annotation keys. *)
Lemma format_key_inj format k1 k2 :
  format ∈ annotationFormats →
  fmt.Sprintf format [k1] = fmt.Sprintf format [k2] → k1 = k2.
Proof.
  intros Hin. rewrite !Sprintf_prefix by assumption.
  apply String.app_inj.
Qed.

(** Two formats never give the same annotation key, whatever the
    slot-keys: no prefix is the beginning of another. *)
Lemma format_key_disjoint format1 format2 k1 k2 :
  format1 ∈ annotationFormats → format2 ∈ annotationFormats →
  format1 ≠ format2 →
  fmt.Sprintf format1 [k1] ≠ fmt.Sprintf format2 [k2].
Proof.
  intros H1 H2 Hne. rewrite !Sprintf_prefix by assumption.
  apply in_annotationFormats in H1, H2.
  destruct H1 as [->|[->|[->|[->| ->]]]];
    destruct H2 as [->|[->|[->|[->| ->]]]];
    try (exfalso; apply Hne; reflexivity);
    vm_compute formatPrefix; rewrite ?append_cons, ?append_nil;
    intros Heq; simplify_eq.
Qed.

Lemma formats_listed :
  TaskRunAnnotationFormat ∈ annotationFormats
  ∧ AttestationAnnotationFormat ∈ annotationFormats
  ∧ SignatureAnnotationFormat ∈ annotationFormats
  ∧ CertAnnotationsFormat ∈ annotationFormats
  ∧ ChainAnnotationFormat ∈ annotationFormats.
Proof. rewrite !in_annotationFormats. tauto. Qed.

Ltac in_formats :=
  first [ exact (proj1 formats_listed)
        | exact (proj1 (proj2 formats_listed))
        | exact (proj1 (proj2 (proj2 formats_listed)))
        | exact (proj1 (proj2 (proj2 (proj2 formats_listed))))
        | exact (proj2 (proj2 (proj2 (proj2 formats_listed)))) ].

(** A map built by four insertions at four different keys. *)
Lemma four_inserts (k1 k2 k3 k4 v1 v2 v3 v4 : string) :
  k4 ≠ k1 → k4 ≠ k2 → k4 ≠ k3 → k1 ≠ k2 → k1 ≠ k3 → k2 ≠ k3 →
  let m : gmap string string :=
    <[k4 := v4]> (<[k3 := v3]> (<[k2 := v2]> (<[k1 := v1]> ∅))) in
  m !! k4 = Some v4 ∧ m !! k3 = Some v3 ∧ m !! k2 = Some v2
  ∧ m !! k1 = Some v1
  ∧ ∀ k, k ∉ [k1; k2; k3; k4] → m !! k = None.
Proof.
  intros H41 H42 H43 H12 H13 H23 m. unfold m. clear m.
  repeat split.
  - apply lookup_insert_eq.
  - rewrite lookup_insert_ne by done. apply lookup_insert_eq.
  - rewrite !lookup_insert_ne by done. apply lookup_insert_eq.
  - rewrite !lookup_insert_ne by done. apply lookup_insert_eq.
  - intros k Hk. rewrite !not_elem_of_cons in Hk.
    destruct Hk as (? & ? & ? & ? & _).
    rewrite !lookup_insert_ne by done. apply lookup_empty.
Qed.

Section Formats.

Variables PayloadTypeTekton PayloadTypeInTotoIte6 : PayloadType.

Local Abbreviation payloadKey := (payloadKey PayloadTypeTekton PayloadTypeInTotoIte6).
Local Abbreviation StorePayload := (StorePayload PayloadTypeTekton PayloadTypeInTotoIte6).
Local Abbreviation RetrievePayload :=
  (RetrievePayload PayloadTypeTekton PayloadTypeInTotoIte6).

Lemma payloadKey_Ok opts pk :
  payloadKey opts = Ok pk →
  pk = fmt.Sprintf TaskRunAnnotationFormat [Key opts]
  ∨ pk = fmt.Sprintf AttestationAnnotationFormat [Key opts].
Proof.
  unfold Tekton.payloadKey.
  destruct (String.eqb _ PayloadTypeTekton); [intros [= <-]; tauto|].
  destruct (String.eqb _ PayloadTypeInTotoIte6); [intros [= <-]; tauto|].
  discriminate.
Qed.

(** The payload key is the key of the options' format for opts.Key. *)
Lemma payloadKey_format opts pk :
  payloadKey opts = Ok pk →
  (PayloadFormat opts = PayloadTypeTekton
   ∧ pk = fmt.Sprintf TaskRunAnnotationFormat [Key opts])
  ∨ (PayloadFormat opts = PayloadTypeInTotoIte6
     ∧ pk = fmt.Sprintf AttestationAnnotationFormat [Key opts]).
Proof.
  unfold Tekton.payloadKey.
  destruct (String.eqb_spec (PayloadFormat opts) PayloadTypeTekton) as [E|_].
  { intros [= <-]. left. split; [exact E | reflexivity]. }
  destruct (String.eqb_spec (PayloadFormat opts) PayloadTypeInTotoIte6)
    as [E|_]; [|discriminate].
  intros [= <-]. right. split; [exact E | reflexivity].
Qed.

Lemma payloadKey_unsupported opts :
  PayloadFormat opts ≠ PayloadTypeTekton →
  PayloadFormat opts ≠ PayloadTypeInTotoIte6 →
  payloadKey opts = Err (ErrUnsupportedPayload (PayloadFormat opts)).
Proof.
  intros H1%String.eqb_neq H2%String.eqb_neq.
  unfold Tekton.payloadKey. by rewrite H1, H2.
Qed.

(** The payload key is none of the other three keys of the slot. *)
Lemma payloadKey_fresh opts pk :
  payloadKey opts = Ok pk →
  pk ≠ signatureKey opts ∧ pk ≠ certKey opts ∧ pk ≠ chainKey opts.
Proof.
  intros [-> | ->]%payloadKey_Ok; repeat split;
    apply format_key_disjoint; try in_formats; discriminate.
Qed.

Lemma other_keys_distinct opts :
  signatureKey opts ≠ certKey opts ∧ signatureKey opts ≠ chainKey opts
  ∧ certKey opts ≠ chainKey opts.
Proof.
  repeat split; apply format_key_disjoint; try in_formats; discriminate.
Qed.

(** What the patch holds at each key. *)
Lemma patchMapOf_lookup rawPayload signature opts pk :
  payloadKey opts = Ok pk →
  let m := patchMapOf rawPayload signature opts pk in
  m !! pk = Some (encode rawPayload)
  ∧ m !! chainKey opts = Some (encode (list_byte_of_string (Chain opts)))
  ∧ m !! certKey opts = Some (encode (list_byte_of_string (Cert opts)))
  ∧ m !! signatureKey opts = Some (encode (list_byte_of_string signature))
  ∧ ∀ k, k ∉ [signatureKey opts; certKey opts; chainKey opts; pk] →
         m !! k = None.
Proof.
  intros Hpk. destruct (payloadKey_fresh _ _ Hpk) as (Hs & Hc & Hh).
  destruct (other_keys_distinct opts) as (Hsc & Hsh & Hch).
  apply four_inserts; auto.
Qed.

(** StorePayload in terms of the patch it builds. *)
Lemma StorePayload_unfold b rawPayload signature opts c :
  StorePayload b rawPayload signature opts c =
    match payloadKey opts with
    | Err e => (Some e, c)
    | Ok pk =>
        match Patch TODO (Namespace (tr b)) (Name (tr b)) MergePatchType
                    (patchMapOf rawPayload signature opts pk) c with
        | (Err cause, c') => (Some (ErrStore cause), c')
        | (Ok _, c') => (None, c')
        end
    end.
Proof.
  unfold Tekton.StorePayload, patchMapOf, signatureKey, certKey, chainKey,
    GetAnnotationsPatch.
  reflexivity.
Qed.

(** A StorePayload that returns no error did one merge patch of the
    record, which the store held and accepted. *)
Lemma StorePayload_success b rawPayload signature opts c c' :
  StorePayload b rawPayload signature opts c = (None, c') →
  ∃ pk tr0,
    let ns := Namespace (tr b) in
    let name := Name (tr b) in
    let patch := patchMapOf rawPayload signature opts pk in
    let call := ApiPatch TODO ns name MergePatchType patch in
    payloadKey opts = Ok pk
    ∧ taskruns c !! (ns, name) = Some tr0
    ∧ (refuses c call = None ∧ loses c call = None)
    ∧ c' = {| taskruns :=
                <[(ns, name) :=
                    {| Namespace := Namespace tr0; Name := Name tr0;
                       Annotations := patch ∪ Annotations tr0 |}]>
                  (taskruns c);
              refuses := refuses c;
              loses := loses c;
              requests := requests c ++ [call] |}.
Proof.
  rewrite StorePayload_unfold.
  destruct (payloadKey opts) as [pk|e] eqn:Hpk; [|discriminate].
  remember (patchMapOf rawPayload signature opts pk) as patch eqn:Hp.
  unfold Patch, received; cbn [taskruns refuses loses requests].
  destruct (refuses c _) eqn:Href; [discriminate|].
  destruct (taskruns c !! _) as [tr0|] eqn:Htr; [|discriminate].
  destruct (loses c _) eqn:Hlost; [discriminate|].
  intros [= <-]. exists pk, tr0. cbn zeta. by subst patch.
Qed.

(** The other direction: when the format is supported and the store
    holds the record, accepts the patch and answers, StorePayload
    succeeds. *)
Lemma StorePayload_run b rawPayload signature opts c pk tr0 :
  let ns := Namespace (tr b) in
  let name := Name (tr b) in
  let patch := patchMapOf rawPayload signature opts pk in
  let call := ApiPatch TODO ns name MergePatchType patch in
  payloadKey opts = Ok pk →
  taskruns c !! (ns, name) = Some tr0 →
  refuses c call = None →
  loses c call = None →
  StorePayload b rawPayload signature opts c =
    (None,
     {| taskruns :=
          <[(ns, name) :=
              {| Namespace := Namespace tr0; Name := Name tr0;
                 Annotations := patch ∪ Annotations tr0 |}]>
            (taskruns c);
        refuses := refuses c;
        loses := loses c;
        requests := requests c ++ [call] |}).
Proof.
  intros ns name patch call Hpk Htr Href Hlost.
  rewrite StorePayload_unfold, Hpk.
  unfold Patch, received; cbn [taskruns refuses loses requests].
  fold ns name patch call. by rewrite Href, Htr, Hlost.
Qed.

(** What a retrieval returns when the store answers the Get. *)
Lemma retrieveAnnotationValue_run b annotationKey c tr0 :
  let ns := Namespace (tr b) in
  let name := Name (tr b) in
  refuses c (ApiGet TODO ns name) = None →
  taskruns c !! (ns, name) = Some tr0 →
  retrieveAnnotationValue b annotationKey true c =
    (match Annotations tr0 !! annotationKey with
     | Some raw =>
         match base64.DecodeString raw with
         | Err cause => Err (ErrDecodingAnnotation annotationKey cause)
         | Ok decoded => Ok (string_of_list_byte decoded)
         end
     | None => Ok ""
     end, received (ApiGet TODO ns name) c).
Proof.
  intros ns name Href Htr. unfold retrieveAnnotationValue, Get.
  fold ns name. rewrite Href, Htr.
  destruct (Annotations tr0 !! annotationKey) as [raw|]; [|reflexivity].
  by destruct (base64.DecodeString raw).
Qed.

Lemma RetrievePayload_run b opts c tr0 pk :
  let ns := Namespace (tr b) in
  let name := Name (tr b) in
  payloadKey opts = Ok pk →
  refuses c (ApiGet TODO ns name) = None →
  taskruns c !! (ns, name) = Some tr0 →
  RetrievePayload b opts c = retrieveAnnotationValue b pk true c.
Proof.
  intros ns name Hpk Href Htr. unfold Tekton.RetrievePayload. rewrite Hpk.
  by destruct (retrieveAnnotationValue b pk true c) as [[v|e] c'].
Qed.

(** Keys of two different slots differ, whatever the two formats. *)
Lemma other_slot_key format1 format2 slot1 slot2 :
  format1 ∈ annotationFormats → format2 ∈ annotationFormats →
  slot1 ≠ slot2 →
  fmt.Sprintf format1 [slot1] ≠ fmt.Sprintf format2 [slot2].
Proof.
  intros H1 H2 Hslot.
  destruct (decide (format1 = format2)) as [->|Hne].
  - intros Heq. by apply format_key_inj in Heq.
  - by apply format_key_disjoint.
Qed.

(** C4: with a payload format that is neither the native nor the
    attestation one, StorePayload returns the unsupported-format error and
    hands back the store as it received it: no request was added to the
    request log (no patch was issued) and no record was changed. *)
Theorem StorePayload_unsupported_format b rawPayload signature opts c :
  PayloadFormat opts ≠ PayloadTypeTekton →
  PayloadFormat opts ≠ PayloadTypeInTotoIte6 →
  StorePayload b rawPayload signature opts c
    = (Some (ErrUnsupportedPayload (PayloadFormat opts)), c)
  ∧ newRequests c (snd (StorePayload b rawPayload signature opts c)) = []
  ∧ taskruns (snd (StorePayload b rawPayload signature opts c)) = taskruns c.
Proof.
  intros H1 H2.
  assert (StorePayload b rawPayload signature opts c
          = (Some (ErrUnsupportedPayload (PayloadFormat opts)), c)) as ->.
  { unfold Tekton.StorePayload.
    by rewrite (payloadKey_unsupported opts H1 H2). }
  repeat split. unfold newRequests. cbn [snd]. apply skipn_all.
Qed.

(** C5: a StorePayload that succeeds sets the four annotation keys derived
    from opts.Key (signature, certificate, chain, and the payload key,
    which is the taskrun format applied to opts.Key for the native payload
    format and the attestation format applied to opts.Key for the
    attestation one; four different keys) to the base64 of the four
    values, leaves every other annotation of the record as it was, in
    particular every key that any of the five formats gives for another
    slot-key, and leaves every other record of the store alone. *)
Theorem StorePayload_sets_four_keys_only b rawPayload signature opts c c' :
  StorePayload b rawPayload signature opts c = (None, c') →
  ∃ pk tr0 tr1,
    payloadKey opts = Ok pk
    ∧ ((PayloadFormat opts = PayloadTypeTekton
        ∧ pk = fmt.Sprintf TaskRunAnnotationFormat [Key opts])
       ∨ (PayloadFormat opts = PayloadTypeInTotoIte6
          ∧ pk = fmt.Sprintf AttestationAnnotationFormat [Key opts]))
    ∧ taskruns c !! (Namespace (tr b), Name (tr b)) = Some tr0
    ∧ taskruns c' !! (Namespace (tr b), Name (tr b)) = Some tr1
    ∧ NoDup [signatureKey opts; certKey opts; chainKey opts; pk]
    ∧ Annotations tr1 !! signatureKey opts
      = Some (encode (list_byte_of_string signature))
    ∧ Annotations tr1 !! certKey opts
      = Some (encode (list_byte_of_string (Cert opts)))
    ∧ Annotations tr1 !! chainKey opts
      = Some (encode (list_byte_of_string (Chain opts)))
    ∧ Annotations tr1 !! pk = Some (encode rawPayload)
    ∧ (∀ k, k ∉ [signatureKey opts; certKey opts; chainKey opts; pk] →
            Annotations tr1 !! k = Annotations tr0 !! k)
    ∧ (∀ format slot,
         format ∈ annotationFormats → slot ≠ Key opts →
         Annotations tr1 !! fmt.Sprintf format [slot]
         = Annotations tr0 !! fmt.Sprintf format [slot])
    ∧ (∀ id, id ≠ (Namespace (tr b), Name (tr b)) →
             taskruns c' !! id = taskruns c !! id).
Proof.
  intros Hstore.
  destruct (StorePayload_success _ _ _ _ _ _ Hstore)
    as (pk & tr0 & Hpk & Htr & _ & ->).
  pose proof (payloadKey_format _ _ Hpk) as Hformat.
  destruct (patchMapOf_lookup rawPayload signature opts pk Hpk)
    as (Lp & Lh & Lc & Ls & Lother).
  destruct (payloadKey_fresh _ _ Hpk) as (Hs & Hc & Hh).
  destruct (other_keys_distinct opts) as (Hsc & Hsh & Hch).
  set (patch := patchMapOf rawPayload signature opts pk) in *.
  assert (Hframe : ∀ k,
             k ∉ [signatureKey opts; certKey opts; chainKey opts; pk] →
             (patch ∪ Annotations tr0) !! k = Annotations tr0 !! k).
  { intros k Hk. apply lookup_union_r. by apply Lother. }
  eexists pk, tr0, _. cbn [taskruns]. rewrite lookup_insert_eq.
  cbn [Annotations].
  split; [exact Hpk|]. split; [exact Hformat|].
  split; [exact Htr|]. split; [reflexivity|].
  split.
  { repeat constructor; rewrite ?not_elem_of_cons, ?elem_of_nil;
      repeat split; auto. }
  split; [by apply lookup_union_Some_l|].
  split; [by apply lookup_union_Some_l|].
  split; [by apply lookup_union_Some_l|].
  split; [by apply lookup_union_Some_l|].
  split; [exact Hframe|].
  split.
  - intros format slot Hin Hslot. apply Hframe.
    assert (Hother : ∀ format', format' ∈ annotationFormats →
              fmt.Sprintf format [slot] ≠ fmt.Sprintf format' [Key opts]).
    { intros format' Hin'. exact (other_slot_key _ _ _ _ Hin Hin' Hslot). }
    rewrite !not_elem_of_cons. unfold signatureKey, certKey, chainKey.
    split; [apply (Hother SignatureAnnotationFormat); in_formats|].
    split; [apply (Hother CertAnnotationsFormat); in_formats|].
    split; [apply (Hother ChainAnnotationFormat); in_formats|].
    split; [|apply not_elem_of_nil].
    destruct (payloadKey_Ok _ _ Hpk) as [-> | ->];
      [apply (Hother TaskRunAnnotationFormat)
      |apply (Hother AttestationAnnotationFormat)]; in_formats.
  - intros id Hid. by apply lookup_insert_ne.
Qed.

(** C6: when the store answers the Get with the record, RetrieveSignature
    returns the empty string and no error if the signature annotation key
    is absent, and, if the key is present with a value that is not valid
    base64, an error that names that annotation key. *)
Theorem RetrieveSignature_absent_or_corrupt b opts c tr0 :
  refuses c (ApiGet TODO (Namespace (tr b)) (Name (tr b))) = None →
  taskruns c !! (Namespace (tr b), Name (tr b)) = Some tr0 →
  (Annotations tr0 !! signatureKey opts = None →
   fst (RetrieveSignature b opts c) = Ok ""%string)
  ∧ (∀ raw, Annotations tr0 !! signatureKey opts = Some raw →
            isOk (base64.DecodeString raw) = false →
            ∃ e, fst (RetrieveSignature b opts c) = Err e
                 ∧ errorNames e (signatureKey opts)).
Proof.
  intros Href Htr. unfold RetrieveSignature, signatureKey.
  rewrite (retrieveAnnotationValue_run b _ c tr0 Href Htr). cbn [fst].
  split.
  - by intros ->.
  - intros raw -> Hbad.
    destruct (base64.DecodeString raw) as [v|cause]; [discriminate|].
    eexists. split; [reflexivity|]. by exists cause.
Qed.

(** C10: a StorePayload of the empty payload followed by RetrievePayload
    gives the empty string and no error, which is also what RetrievePayload
    gives on a record where the payload key was never stored: the two
    results are equal. *)
Theorem empty_payload_like_absent b signature opts c c' c0 tr0 pk :
  StorePayload b [] signature opts c = (None, c') →
  refuses c' (ApiGet TODO (Namespace (tr b)) (Name (tr b))) = None →
  payloadKey opts = Ok pk →
  refuses c0 (ApiGet TODO (Namespace (tr b)) (Name (tr b))) = None →
  taskruns c0 !! (Namespace (tr b), Name (tr b)) = Some tr0 →
  Annotations tr0 !! pk = None →
  fst (RetrievePayload b opts c') = Ok ""%string
  ∧ fst (RetrievePayload b opts c0) = Ok ""%string
  ∧ fst (RetrievePayload b opts c') = fst (RetrievePayload b opts c0).
Proof.
  intros Hstore Href' Hpk Href0 Htr0 Habsent.
  destruct (StorePayload_success _ _ _ _ _ _ Hstore)
    as (pk' & tr1 & Hpk' & Htr & _ & Hc').
  rewrite Hpk in Hpk'. injection Hpk' as <-.
  destruct (patchMapOf_lookup [] signature opts pk Hpk) as (Lp & _).
  assert (E0 : fst (RetrievePayload b opts c0) = Ok ""%string).
  { rewrite (RetrievePayload_run b opts c0 tr0 pk Hpk Href0 Htr0).
    rewrite (retrieveAnnotationValue_run b pk c0 tr0 Href0 Htr0).
    cbn [fst]. by rewrite Habsent. }
  assert (E1 : fst (RetrievePayload b opts c') = Ok ""%string).
  { assert (Htr' : taskruns c' !! (Namespace (tr b), Name (tr b))
                   = Some {| Namespace := Namespace tr1; Name := Name tr1;
                             Annotations :=
                               patchMapOf [] signature opts pk
                               ∪ Annotations tr1 |}).
    { rewrite Hc'. cbn [taskruns]. apply lookup_insert_eq. }
    rewrite (RetrievePayload_run b opts c' _ pk Hpk Href' Htr').
    rewrite (retrieveAnnotationValue_run b pk c' _ Href' Htr').
    cbn [fst Annotations].
    rewrite (lookup_union_Some_l _ _ _ _ Lp). reflexivity. }
  repeat split; [exact E1 | exact E0 | by rewrite E0, E1].
Qed.

End Formats.

(** The native format selects the taskrun key of the slot. *)
Lemma payloadKey_native (native attestation : PayloadType) key :
  payloadKey native attestation (exampleOpts key native)
  = Ok (fmt.Sprintf TaskRunAnnotationFormat [key]).
Proof.
  unfold payloadKey, exampleOpts. cbn [PayloadFormat Key].
  by rewrite String.eqb_refl.
Qed.

(** C3: on a record with no annotations, StorePayload of payload "p" and
    signature "s" under key "step1" (cert "C", chain "K", native format)
    returns no error; RetrievePayload with the same options then returns
    "p", RetrieveSignature returns "s", and RetrievePayload for the key
    "step2" returns the empty string and no error. *)
Theorem end_to_end_example (native attestation : PayloadType)
    (ns name : string) :
  let b := backendFor ns name in
  let opts := exampleOpts "step1" native in
  let r1 := StorePayload native attestation b (list_byte_of_string "p") "s"
              opts (clusterWith ns name ∅) in
  let r2 := RetrievePayload native attestation b opts (snd r1) in
  let r3 := RetrieveSignature b opts (snd r2) in
  let r4 := RetrievePayload native attestation b
              (exampleOpts "step2" native) (snd r3) in
  fst r1 = None ∧ fst r2 = Ok "p"%string ∧ fst r3 = Ok "s"%string
  ∧ fst r4 = Ok ""%string.
Proof.
  intros b opts.
  set (pk := fmt.Sprintf TaskRunAnnotationFormat ["step1"%string]).
  set (patch := patchMapOf (list_byte_of_string "p") "s" opts pk).
  set (tr1 := taskRun ns name (patch ∪ ∅)).
  assert (Hpk : payloadKey native attestation opts = Ok pk)
    by apply payloadKey_native.
  assert (Hpk2 : payloadKey native attestation (exampleOpts "step2" native)
                 = Ok (fmt.Sprintf TaskRunAnnotationFormat ["step2"%string]))
    by apply payloadKey_native.
  assert (L1 : Annotations tr1 !! pk = Some "cA=="%string)
    by (vm_compute; reflexivity).
  assert (L2 : Annotations tr1
                 !! fmt.Sprintf SignatureAnnotationFormat [Key opts]
               = Some "cw=="%string)
    by (vm_compute; reflexivity).
  assert (L3 : Annotations tr1
                 !! fmt.Sprintf TaskRunAnnotationFormat ["step2"%string]
               = None)
    by (vm_compute; reflexivity).
  assert (D1 : base64.DecodeString "cA==" = Ok (list_byte_of_string "p"))
    by (vm_compute; reflexivity).
  assert (D2 : base64.DecodeString "cw==" = Ok (list_byte_of_string "s"))
    by (vm_compute; reflexivity).
  assert (E1 : StorePayload native attestation b (list_byte_of_string "p")
                 "s" opts (clusterWith ns name ∅)
               = (None,
                  {| taskruns := <[(ns, name) := tr1]>
                                   {[ (ns, name) := taskRun ns name ∅ ]};
                     refuses := λ _, None;
                     loses := λ _, None;
                     requests :=
                       [ApiPatch TODO ns name MergePatchType patch] |})).
  { rewrite (StorePayload_run native attestation b _ "s" opts
               (clusterWith ns name ∅) pk (taskRun ns name ∅) Hpk);
      [reflexivity | apply lookup_singleton_eq | reflexivity
      | reflexivity]. }
  cbv zeta. rewrite E1. clear E1. cbn [snd fst].
  set (c1 := {| taskruns := _; refuses := _; loses := _; requests := _ |}).
  assert (G1 : ∀ c, taskruns c = taskruns c1 → refuses c = (λ _, None) →
               ∀ k, retrieveAnnotationValue b k true c
                    = (match Annotations tr1 !! k with
                       | Some raw =>
                           match base64.DecodeString raw with
                           | Err cause => Err (ErrDecodingAnnotation k cause)
                           | Ok decoded => Ok (string_of_list_byte decoded)
                           end
                       | None => Ok ""%string
                       end, received (ApiGet TODO ns name) c)).
  { intros c Ht Hr k.
    apply (retrieveAnnotationValue_run b k c tr1).
    - by rewrite Hr.
    - rewrite Ht. apply lookup_insert_eq. }
  assert (R2 : RetrievePayload native attestation b opts c1
               = (Ok "p"%string, received (ApiGet TODO ns name) c1)).
  { unfold RetrievePayload. rewrite Hpk, (G1 c1 eq_refl eq_refl), L1, D1.
    reflexivity. }
  rewrite R2. clear R2. cbn [snd fst].
  set (c2 := received _ c1).
  assert (R3 : RetrieveSignature b opts c2
               = (Ok "s"%string, received (ApiGet TODO ns name) c2)).
  { unfold RetrieveSignature. rewrite (G1 c2 eq_refl eq_refl), L2, D2.
    reflexivity. }
  rewrite R3. clear R3. cbn [snd fst].
  set (c3 := received _ c2).
  unfold RetrievePayload.
  rewrite Hpk2, (G1 c3 eq_refl eq_refl), L3. by cbn [fst].
Qed.

Lemma StorePayload_unsupported_format_witness :
  let b := backendFor "ns" "build" in
  let opts := exampleOpts "step1" "simplesigning" in
  let c := clusterWith "ns" "build" ∅ in
  let r := StorePayload "tekton" "in-toto" b (list_byte_of_string "p") "s"
             opts c in
  r = (Some (ErrUnsupportedPayload "simplesigning"), c)
  ∧ newRequests c (snd r) = []
  ∧ taskruns (snd r) = taskruns c.
Proof.
  apply (StorePayload_unsupported_format "tekton" "in-toto"
           (backendFor "ns" "build") (list_byte_of_string "p") "s"
           (exampleOpts "step1" "simplesigning")
           (clusterWith "ns" "build" ∅));
    intros H; vm_compute in H; discriminate H.
Defined.

Lemma StorePayload_sets_four_keys_only_witness :
  let b := backendFor "ns" "build" in
  let opts := exampleOpts "A" "tekton" in
  let c := clusterWith "ns" "build"
             {[ "chains.tekton.dev/signature-B" := "b2xk";
                "owner" := "team" ]} in
  let c' := snd (StorePayload "tekton" "in-toto" b
                   (list_byte_of_string "p") "s" opts c) in
  ∃ pk tr0 tr1,
    payloadKey "tekton" "in-toto" opts = Ok pk
    ∧ ((PayloadFormat opts = "tekton"%string
        ∧ pk = fmt.Sprintf TaskRunAnnotationFormat [Key opts])
       ∨ (PayloadFormat opts = "in-toto"%string
          ∧ pk = fmt.Sprintf AttestationAnnotationFormat [Key opts]))
    ∧ taskruns c !! (Namespace (tr b), Name (tr b)) = Some tr0
    ∧ taskruns c' !! (Namespace (tr b), Name (tr b)) = Some tr1
    ∧ NoDup [signatureKey opts; certKey opts; chainKey opts; pk]
    ∧ Annotations tr1 !! signatureKey opts
      = Some (encode (list_byte_of_string "s"))
    ∧ Annotations tr1 !! certKey opts
      = Some (encode (list_byte_of_string (Cert opts)))
    ∧ Annotations tr1 !! chainKey opts
      = Some (encode (list_byte_of_string (Chain opts)))
    ∧ Annotations tr1 !! pk = Some (encode (list_byte_of_string "p"))
    ∧ (∀ k, k ∉ [signatureKey opts; certKey opts; chainKey opts; pk] →
            Annotations tr1 !! k = Annotations tr0 !! k)
    ∧ (∀ format slot,
         format ∈ annotationFormats → slot ≠ Key opts →
         Annotations tr1 !! fmt.Sprintf format [slot]
         = Annotations tr0 !! fmt.Sprintf format [slot])
    ∧ (∀ id, id ≠ (Namespace (tr b), Name (tr b)) →
             taskruns c' !! id = taskruns c !! id).
Proof.
  intros b opts c c'.
  apply (StorePayload_sets_four_keys_only "tekton" "in-toto" b
           (list_byte_of_string "p") "s" opts c c').
  vm_compute. reflexivity.
Defined.

Lemma RetrieveSignature_absent_or_corrupt_witness :
  let b := backendFor "ns" "build" in
  let opts := exampleOpts "step1" "tekton" in
  fst (RetrieveSignature b opts (clusterWith "ns" "build" ∅)) = Ok ""%string
  ∧ ∃ e,
      fst (RetrieveSignature b opts
             (clusterWith "ns" "build"
                {[ "chains.tekton.dev/signature-step1" := "!!!" ]}))
      = Err e
      ∧ errorNames e (signatureKey opts).
Proof.
  intros b opts. split.
  - apply (proj1 (RetrieveSignature_absent_or_corrupt b opts
                    (clusterWith "ns" "build" ∅) (taskRun "ns" "build" ∅)
                    eq_refl eq_refl)).
    vm_compute. reflexivity.
  - apply (proj2 (RetrieveSignature_absent_or_corrupt b opts
                    (clusterWith "ns" "build"
                       {[ "chains.tekton.dev/signature-step1" := "!!!" ]})
                    (taskRun "ns" "build"
                       {[ "chains.tekton.dev/signature-step1" := "!!!" ]})
                    eq_refl eq_refl) "!!!"%string);
      vm_compute; reflexivity.
Defined.

Lemma empty_payload_like_absent_witness :
  let b := backendFor "ns" "build" in
  let opts := exampleOpts "step1" "tekton" in
  let c0 := clusterWith "ns" "build" ∅ in
  let c' := snd (StorePayload "tekton" "in-toto" b [] "s" opts c0) in
  fst (RetrievePayload "tekton" "in-toto" b opts c') = Ok ""%string
  ∧ fst (RetrievePayload "tekton" "in-toto" b opts c0) = Ok ""%string
  ∧ fst (RetrievePayload "tekton" "in-toto" b opts c')
    = fst (RetrievePayload "tekton" "in-toto" b opts c0).
Proof.
  intros b opts c0 c'.
  apply (empty_payload_like_absent "tekton" "in-toto" b "s" opts c0 c' c0
           (taskRun "ns" "build" ∅) "chains.tekton.dev/taskrun-step1");
    vm_compute; reflexivity.
Defined.

End TektonProofs.

(** * Properties of the signer *)

Module AzureProofs.

Import Azure AzureSpec.

Lemma byteZ_range (b : byte) : 0 <= byteZ b < 256.
Proof.
  unfold byteZ. pose proof (Byte.to_N_bounded b). lia.
Qed.

Lemma byteZ_inj (a b : byte) : byteZ a = byteZ b -> a = b.
Proof.
  unfold byteZ. intros H. apply N2Z.inj in H.
  pose proof (Byte.of_to_N a) as Ha. rewrite H, Byte.of_to_N in Ha.
  congruence.
Qed.

(** The header of a prefix of [s], when it can be read at all, is the
    header of [s]. *)
Lemma asn1Header_firstn (n : nat) (s : bytes) :
  cryptobyte.asn1Header (firstn n s) = None
  \/ cryptobyte.asn1Header (firstn n s) = cryptobyte.asn1Header s.
Proof.
  destruct s as [|tag [|lenByte rest]];
    destruct n as [|[|n]]; try (left; reflexivity).
  change (firstn (S (S n)) (tag :: lenByte :: rest))
    with (tag :: lenByte :: firstn n rest).
  unfold cryptobyte.asn1Header.
  destruct (Z.land (byteZ tag) 31 =? 31); [left; reflexivity|].
  destruct (Z.land (byteZ lenByte) 128 =? 0); [right; reflexivity|].
  cbv zeta. set (lenLen := Z.land (byteZ lenByte) 127).
  destruct ((lenLen =? 0) || (4 <? lenLen)) eqn:Hll; [left; reflexivity|].
  cbn [orb].
  destruct (Z.of_nat (length (tag :: lenByte :: firstn n rest)) <? 2 + lenLen)
    eqn:Hshort; [left; reflexivity|].
  right. apply Z.ltb_ge in Hshort.
  cbn [length] in Hshort. rewrite length_firstn in Hshort.
  assert (Hlong : (Z.of_nat (length (tag :: lenByte :: rest)) <? 2 + lenLen)
                  = false).
  { apply Z.ltb_ge. cbn [length]. lia. }
  rewrite Hlong.
  change (skipn 2 (tag :: lenByte :: firstn n rest)) with (firstn n rest).
  change (skipn 2 (tag :: lenByte :: rest)) with rest.
  rewrite firstn_firstn.
  replace (Nat.min (Z.to_nat lenLen) n) with (Z.to_nat lenLen) by lia.
  reflexivity.
Qed.

(** [readASN1] on a non-empty input, in terms of its header. *)
Lemma readASN1_cons tag s' :
  cryptobyte.readASN1 (tag :: s') =
    match cryptobyte.asn1Header (tag :: s') with
    | Some (len, headerLen) =>
        if Z.of_nat (length (tag :: s')) <? len then None
        else Some (tag,
                   skipn (Z.to_nat headerLen)
                     (firstn (Z.to_nat len) (tag :: s')),
                   skipn (Z.to_nat len) (tag :: s'))
    | None => None
    end.
Proof. reflexivity. Qed.

Lemma readASN1_tag s t out rest :
  cryptobyte.readASN1 s = Some (t, out, rest) -> hd_error s = Some t.
Proof.
  destruct s as [|tag s']; [discriminate|]. rewrite readASN1_cons.
  destruct (cryptobyte.asn1Header (tag :: s')) as [[len hl]|]; [|discriminate].
  destruct (_ <? _); [discriminate|]. intros [= <- _ _]. reflexivity.
Qed.

(** Bytes after an element do not change how the element is read: they
    are left in the rest. *)
Lemma readASN1_app s e t out rest :
  cryptobyte.readASN1 s = Some (t, out, rest) ->
  cryptobyte.readASN1 (s ++ e) = Some (t, out, rest ++ e).
Proof.
  destruct s as [|tag s']; [discriminate|].
  change ((tag :: s') ++ e) with (tag :: (s' ++ e)).
  rewrite !readASN1_cons.
  change (tag :: (s' ++ e)) with ((tag :: s') ++ e).
  destruct (cryptobyte.asn1Header (tag :: s')) as [[len hl]|] eqn:Hh;
    [|discriminate].
  destruct (Z.of_nat (length (tag :: s')) <? len) eqn:Hlen; [discriminate|].
  intros [= <- <- <-]. apply Z.ltb_ge in Hlen.
  assert (Hh' : cryptobyte.asn1Header ((tag :: s') ++ e) = Some (len, hl)).
  { destruct (asn1Header_firstn (length (tag :: s')) ((tag :: s') ++ e))
      as [H|H]; rewrite firstn_app, firstn_all, Nat.sub_diag, firstn_O,
                  app_nil_r in H; congruence. }
  rewrite Hh'.
  assert (Hnat : (Z.to_nat len <= length (tag :: s'))%nat) by lia.
  assert (Hlen' : (Z.of_nat (length ((tag :: s') ++ e)) <? len) = false).
  { apply Z.ltb_ge. rewrite length_app. lia. }
  rewrite Hlen'.
  rewrite firstn_app.
  replace (Z.to_nat len - length (tag :: s'))%nat with 0%nat by lia.
  rewrite firstn_O, app_nil_r, skipn_app.
  replace (Z.to_nat len - length (tag :: s'))%nat with 0%nat by lia.
  rewrite skipn_O. reflexivity.
Qed.

(** An element that fills its input cannot be read from a shorter
    prefix of that input. *)
Lemma readASN1_truncated s t out (n : nat) :
  cryptobyte.readASN1 s = Some (t, out, []) ->
  (n < length s)%nat ->
  cryptobyte.readASN1 (firstn n s) = None.
Proof.
  destruct s as [|tag s']; [discriminate|]. rewrite readASN1_cons.
  destruct (cryptobyte.asn1Header (tag :: s')) as [[len hl]|] eqn:Hh;
    [|discriminate].
  destruct (Z.of_nat (length (tag :: s')) <? len) eqn:Hlen; [discriminate|].
  intros [= _ _ Hrest] Hn. apply Z.ltb_ge in Hlen.
  assert (Hall : (length (tag :: s') <= Z.to_nat len)%nat).
  { apply (f_equal (@length byte)) in Hrest. rewrite length_skipn in Hrest.
    cbn [length] in Hrest |- *. lia. }
  destruct (firstn n (tag :: s')) as [|tag' p'] eqn:Hp; [reflexivity|].
  rewrite readASN1_cons, <- Hp.
  destruct (asn1Header_firstn n (tag :: s')) as [H|H]; rewrite H;
    [reflexivity|].
  rewrite Hh.
  assert (Hcut : (Z.of_nat (length (firstn n (tag :: s'))) <? len) = true).
  { apply Z.ltb_lt. rewrite length_firstn. cbn [length] in *. lia. }
  rewrite Hcut. reflexivity.
Qed.

Lemma ReadASN1_app s e tag out rest :
  cryptobyte.ReadASN1 s tag = Some (out, rest) ->
  cryptobyte.ReadASN1 (s ++ e) tag = Some (out, rest ++ e).
Proof.
  unfold cryptobyte.ReadASN1.
  destruct (cryptobyte.readASN1 s) as [[[t o] r]|] eqn:H; [|discriminate].
  rewrite (readASN1_app _ e _ _ _ H).
  destruct (byteZ t =? byteZ tag); [|discriminate].
  by intros [= <- <-].
Qed.

Lemma ReadASN1_truncated s tag out (n : nat) :
  cryptobyte.ReadASN1 s tag = Some (out, []) ->
  (n < length s)%nat ->
  cryptobyte.ReadASN1 (firstn n s) tag = None.
Proof.
  unfold cryptobyte.ReadASN1.
  destruct (cryptobyte.readASN1 s) as [[[t o] r]|] eqn:H; [|discriminate].
  destruct (byteZ t =? byteZ tag); [|discriminate].
  intros [= _ ->] Hn. by rewrite (readASN1_truncated _ _ _ n H Hn).
Qed.

Lemma ReadASN1_head s tag out rest :
  cryptobyte.ReadASN1 s tag = Some (out, rest) -> hd_error s = Some tag.
Proof.
  unfold cryptobyte.ReadASN1.
  destruct (cryptobyte.readASN1 s) as [[[t o] r]|] eqn:H; [|discriminate].
  destruct (byteZ t =? byteZ tag) eqn:Ht; [|discriminate].
  intros _. apply Z.eqb_eq, byteZ_inj in Ht. subst t.
  exact (readASN1_tag _ _ _ _ H).
Qed.

(** A signature that parses is one SEQUENCE element and nothing else. *)
Lemma parseSignature_whole sig r s :
  parseSignature sig = Some (r, s) ->
  exists inner, cryptobyte.ReadASN1 sig asn1.SEQUENCE = Some (inner, []).
Proof.
  unfold parseSignature.
  destruct (cryptobyte.ReadASN1 sig asn1.SEQUENCE) as [[inner input]|];
    [|discriminate].
  destruct input; [|discriminate]. eauto.
Qed.

Lemma parseSignature_not_sequence t rest :
  t <> asn1.SEQUENCE -> parseSignature (t :: rest) = None.
Proof.
  intros Ht. unfold parseSignature.
  destruct (cryptobyte.ReadASN1 (t :: rest) asn1.SEQUENCE)
    as [[inner input]|] eqn:H; [|reflexivity].
  apply ReadASN1_head in H. cbn in H. congruence.
Qed.

Section Signer.

Variable hashSum : crypto.Hash -> bytes -> bytes.
Variable newAzureKMS : Context -> string -> Result Error azureVaultClient.

(** A signature that does not parse never reaches the backend. *)
Lemma VerifySignature_unparsable a sig message opts :
  parseSignature sig = None ->
  failsWithoutBackendCall
    (VerifySignature hashSum a (ReaderOf sig) message opts)
  /\ (isOk (ComputeDigestForVerifying hashSum message (hashFunc a)
              azureSupportedHashFuncs opts) = true ->
      fst (VerifySignature hashSum a (ReaderOf sig) message opts)
      = Some ErrParsingSignature).
Proof.
  intros Hparse. unfold VerifySignature, failsWithoutBackendCall.
  destruct (ComputeDigestForVerifying hashSum message (hashFunc a)
              azureSupportedHashFuncs opts) as [[digest h]|e].
  - cbn [ReadAll]. unfold rawFromDER. rewrite Hparse. cbn. eauto.
  - cbn. split; [eauto | discriminate].
Qed.

(** C2: for a byte string that parses as a DER SEQUENCE of two INTEGERs
    (it then starts with the SEQUENCE tag): with any byte appended, with
    its tag replaced by any other, or cut short anywhere, it does not
    parse; and VerifySignature on the padded or retagged bytes ends in an
    error without a call to the backend (the parsing error, when the
    digest computation succeeds). *)
Theorem strict_DER_rejection sig r s :
  parseSignature sig = Some (r, s) ->
  hd_error sig = Some asn1.SEQUENCE
  /\ (forall b, parseSignature (sig ++ [b]) = None)
  /\ (forall t, t <> asn1.SEQUENCE -> parseSignature (t :: tl sig) = None)
  /\ (forall n, (n < length sig)%nat -> parseSignature (firstn n sig) = None)
  /\ (forall a message opts sig',
        (exists b, sig' = sig ++ [b])
        \/ (exists t, t <> asn1.SEQUENCE /\ sig' = t :: tl sig) ->
        failsWithoutBackendCall
          (VerifySignature hashSum a (ReaderOf sig') message opts)
        /\ (isOk (ComputeDigestForVerifying hashSum message (hashFunc a)
                    azureSupportedHashFuncs opts) = true ->
            fst (VerifySignature hashSum a (ReaderOf sig') message opts)
            = Some ErrParsingSignature)).
Proof.
  intros Hparse.
  destruct (parseSignature_whole _ _ _ Hparse) as [inner Hread].
  assert (Hpad : forall b, parseSignature (sig ++ [b]) = None).
  { intros b. unfold parseSignature.
    by rewrite (ReadASN1_app _ [b] _ _ _ Hread). }
  assert (Htag : forall t, t <> asn1.SEQUENCE ->
                           parseSignature (t :: tl sig) = None).
  { intros t Ht. by apply parseSignature_not_sequence. }
  split; [exact (ReadASN1_head _ _ _ _ Hread)|].
  split; [exact Hpad|]. split; [exact Htag|]. split.
  - intros n Hn. unfold parseSignature.
    by rewrite (ReadASN1_truncated _ _ _ n Hread Hn).
  - intros a message opts sig' [[b ->] | [t [Ht ->]]];
      apply VerifySignature_unparsable; auto.
Qed.

(** C7, as the code has it: built with the hash unset (zero), the signer
    keeps zero as its hash, and SignMessage with no per-call hash option
    stops with the unsupported-hash error before any call to the backend.
    A message stream is digested with SHA-256, and that digest sent to the
    backend, when SHA-256 was given at construction, or is given for the
    call with WithCryptoSignerOpts. *)
Theorem unset_hash_is_kept ctx referenceStr a :
  LoadSignerVerifier newAzureKMS ctx referenceStr 0%N = Ok a ->
  hashFunc a = 0%N
  /\ (forall message opts,
        fold_left (fun h o => ApplyCryptoSignerOpts o h) opts 0%N = 0%N ->
        SignMessage hashSum a message opts
        = (Err (ErrUnsupportedHashAlgorithm 0%N), []))
  /\ (forall data,
        snd (SignMessage hashSum a (Some (ReaderOf data))
               [WithCryptoSignerOpts crypto.SHA256])
        = [CallSign Background (hashSum crypto.SHA256 data)])
  /\ (forall a' data,
        LoadSignerVerifier newAzureKMS ctx referenceStr crypto.SHA256
        = Ok a' ->
        hashFunc a' = crypto.SHA256
        /\ snd (SignMessage hashSum a' (Some (ReaderOf data)) [])
           = [CallSign Background (hashSum crypto.SHA256 data)]).
Proof.
  unfold LoadSignerVerifier.
  destruct (newAzureKMS ctx referenceStr) as [c|e]; [|discriminate].
  cbn. intros [= <-]. cbn [hashFunc]. split; [reflexivity|]. split.
  - intros message opts Hopts.
    unfold SignMessage, ComputeDigestForSigning, ComputeDigest.
    cbn [hashFunc]. rewrite !Hopts. reflexivity.
  - split.
    + intros data. unfold SignMessage, ComputeDigestForSigning, ComputeDigest.
      cbn. by destruct (sign c Background (hashSum crypto.SHA256 data)).
    + intros a' data [= <-]. split; [reflexivity|].
      unfold SignMessage, ComputeDigestForSigning, ComputeDigest.
      cbn. by destruct (sign c Background (hashSum crypto.SHA256 data)).
Qed.

End Signer.

(** C8, evaluated: the algorithm name "RSA_4096" is not among the
    supported ones, and CreateKey called with it asks the backend for a
    key all the same, exactly as it does for "ES256". *)
Theorem CreateKey_ignores_algorithm (a : SignerVerifier) (ctx : Context) :
  ~ In "RSA_4096"%string (SupportedAlgorithms a)
  /\ CreateKey a ctx "RSA_4096" = (createKey (client a) ctx, [CallCreateKey ctx])
  /\ CreateKey a ctx "RSA_4096" = CreateKey a ctx Algorithm_ES256.
Proof.
  split; [|split; reflexivity].
  cbn. intros [H|[]]. discriminate H.
Qed.

(** C1, evaluated: the raw signature 00 01 00 02 becomes the DER bytes
    30 06 02 01 01 02 01 02, and these come back as the raw bytes 01 02:
    the leading zero byte of each half is lost, so the round trip does not
    return the original four bytes. *)
Theorem roundtrip_loses_leading_zeros :
  derFromRaw rawExample = Ok derExample
  /\ rawFromDER derExample = Some [x01; x02]
  /\ rawFromDER derExample <> Some rawExample.
Proof.
  split; [vm_compute; reflexivity|].
  assert (H : rawFromDER derExample = Some [x01; x02])
    by (vm_compute; reflexivity).
  split; [exact H|]. rewrite H. discriminate.
Qed.

Lemma strict_DER_rejection_witness :
  parseSignature (derExample ++ [x00]) = None
  /\ parseSignature (x31 :: tl derExample) = None
  /\ parseSignature (firstn 7 derExample) = None.
Proof.
  destruct (strict_DER_rejection exampleHash derExample 1 2)
    as (_ & Hpad & Htag & Hcut & _).
  - vm_compute. reflexivity.
  - split; [apply Hpad|]. split; [apply Htag; discriminate|].
    apply Hcut. vm_compute. lia.
Defined.

Lemma unset_hash_is_kept_witness :
  hashFunc (exampleSigner rawExample 0%N) = 0%N
  /\ SignMessage exampleHash (exampleSigner rawExample 0%N)
       (Some (ReaderOf [x61])) []
     = (Err (ErrUnsupportedHashAlgorithm 0%N), []).
Proof.
  destruct (unset_hash_is_kept exampleHash (cannedKMS rawExample [])
              Background "key" (exampleSigner rawExample 0%N))
    as (H0 & Hfail & _).
  - vm_compute. reflexivity.
  - split; [exact H0|]. apply Hfail. reflexivity.
Defined.

(** The claim C7 fails on the code: a signer built with the hash unset
    does not have SHA-256 as its hash, and SignMessage over a message
    stream returns an error instead of a signature. *)
Lemma unset_hash_is_not_SHA256 :
  exists a,
    LoadSignerVerifier (cannedKMS rawExample []) Background "key" 0%N = Ok a
    /\ hashFunc a <> crypto.SHA256
    /\ fst (SignMessage exampleHash a (Some (ReaderOf [x61])) [])
       = Err (ErrUnsupportedHashAlgorithm 0%N)
    /\ snd (SignMessage exampleHash a (Some (ReaderOf [x61])) []) = [].
Proof.
  eexists. split; [vm_compute; reflexivity|].
  split; [intros H; vm_compute in H; discriminate H|].
  split; vm_compute; reflexivity.
Qed.

End AzureProofs.

(** * Which context reaches the backend and the store *)

Module ContextProofs.

Import Azure AzureSpec Tekton TektonSpec.

Lemma newRequests_app c c' l :
  requests c' = requests c ++ l -> newRequests c c' = l.
Proof.
  intros H. unfold newRequests. rewrite H, skipn_app, skipn_all.
  by rewrite Nat.sub_diag.
Qed.

Lemma Get_requests ctx ns name c :
  requests (snd (Get ctx ns name c)) = requests c ++ [ApiGet ctx ns name].
Proof.
  unfold Get. destruct (refuses c _); [reflexivity|].
  by destruct (taskruns c !! _).
Qed.

Lemma Patch_requests ctx ns name pt patch c :
  requests (snd (Patch ctx ns name pt patch c))
  = requests c ++ [ApiPatch ctx ns name pt patch].
Proof.
  unfold Patch. destruct (refuses c _); [reflexivity|].
  destruct (taskruns c !! _); [|reflexivity].
  by destruct (loses c _).
Qed.

Lemma retrieveAnnotationValue_requests b k decode c :
  requests (snd (retrieveAnnotationValue b k decode c))
  = requests c ++ [ApiGet TODO (Namespace (tr b)) (Name (tr b))].
Proof.
  unfold retrieveAnnotationValue.
  rewrite <- (Get_requests TODO (Namespace (tr b)) (Name (tr b)) c).
  destruct (Get TODO (Namespace (tr b)) (Name (tr b)) c) as [[t|e] c'];
    [|reflexivity].
  destruct (Annotations t !! k) as [raw|]; [|reflexivity].
  destruct decode; [|reflexivity].
  by destruct (base64.DecodeString raw).
Qed.

(** The claim C9 fails on the code: VerifySignature handed a caller's
    context as an option calls the backend with context.Background(). *)
Lemma verify_drops_caller_context :
  let calls :=
    snd (VerifySignature exampleHash (exampleSigner rawExample crypto.SHA256)
           (ReaderOf derExample) (Some (ReaderOf [x61]))
           [WithContext (CallerCtx 7)]) in
  calls = [CallVerify Background [x01; x02] (exampleHash crypto.SHA256 [x61])]
  /\ exists call, In call calls /\ kmsCallContext call <> Some (CallerCtx 7).
Proof.
  assert (H : snd (VerifySignature exampleHash
                     (exampleSigner rawExample crypto.SHA256)
                     (ReaderOf derExample) (Some (ReaderOf [x61]))
                     [WithContext (CallerCtx 7)])
              = [CallVerify Background [x01; x02]
                   (exampleHash crypto.SHA256 [x61])])
    by (vm_compute; reflexivity).
  cbv zeta. rewrite H. split; [reflexivity|].
  eexists. split; [left; reflexivity|]. discriminate.
Qed.

(** C9, as the code has it: whatever options VerifySignature is given,
    every call it makes to the backend carries context.Background(); and
    every request that StorePayload, RetrieveSignature and RetrievePayload
    (which take no context) send to the store carries context.TODO(). *)
Theorem fixed_contexts_reach_the_io
    (hashSum : crypto.Hash -> bytes -> bytes)
    (native attestation : PayloadType) :
  (forall a sig message opts,
     Forall (fun call => kmsCallContext call = Some Background)
       (snd (VerifySignature hashSum a sig message opts)))
  /\ (forall b rawPayload signature opts c,
        Forall (fun call => callContext call = TODO)
          (newRequests c
             (snd (StorePayload native attestation b rawPayload signature
                     opts c))))
  /\ (forall b opts c,
        Forall (fun call => callContext call = TODO)
          (newRequests c (snd (RetrieveSignature b opts c))))
  /\ (forall b opts c,
        Forall (fun call => callContext call = TODO)
          (newRequests c
             (snd (RetrievePayload native attestation b opts c)))).
Proof.
  split; [|split; [|split]].
  - intros a sig message opts. unfold VerifySignature.
    destruct (ComputeDigestForVerifying _ _ _ _ _) as [[digest h]|e];
      [|constructor].
    destruct (ReadAll sig) as [sigBytes|cause]; [|constructor].
    destruct (rawFromDER sigBytes) as [raw|]; [|constructor].
    cbn [snd]. by repeat constructor.
  - intros b rawPayload signature opts c.
    rewrite TektonProofs.StorePayload_unfold.
    destruct (payloadKey native attestation opts) as [pk|e].
    + pose proof (Patch_requests TODO (Namespace (tr b)) (Name (tr b))
                    MergePatchType
                    (patchMapOf rawPayload signature opts pk) c) as H.
      destruct (Patch _ _ _ _ _ c) as [[t|e] c']; cbn [snd] in *;
        rewrite (newRequests_app _ _ _ H); by repeat constructor.
    + cbn [snd]. rewrite (newRequests_app c c []); [constructor|].
      by rewrite app_nil_r.
  - intros b opts c. unfold RetrieveSignature.
    rewrite (newRequests_app _ _ _
               (retrieveAnnotationValue_requests b _ true c)).
    by repeat constructor.
  - intros b opts c. unfold RetrievePayload.
    destruct (payloadKey native attestation opts) as [pk|e].
    + pose proof (retrieveAnnotationValue_requests b pk true c) as H.
      destruct (retrieveAnnotationValue b pk true c) as [[v|e] c'];
        cbn [snd] in *; rewrite (newRequests_app _ _ _ H);
        by repeat constructor.
    + cbn [snd]. rewrite (newRequests_app c c []); [constructor|].
      by rewrite app_nil_r.
Qed.

End ContextProofs.

(** * The base64 encoding of the annotations decodes to what was encoded *)

Module Base64Proofs.

Import base64.

Lemma Zbyte_of_mod (z : Z) (b : byte) : z mod 256 = byteZ b -> Zbyte z = b.
Proof.
  intros H. unfold Zbyte. rewrite H. unfold byteZ.
  by rewrite N2Z.id, Byte.of_to_N.
Qed.

Lemma testbit_small (v n i : Z) :
  0 <= v < 2 ^ n -> n <= i -> Z.testbit v i = false.
Proof.
  intros Hv Hi. destruct (Z.eq_dec v 0) as [->|Hne]; [apply Z.testbit_0_l|].
  apply Z.bits_above_log2; [lia|].
  assert (Z.log2 v < n); [|lia].
  apply Z.log2_lt_pow2; lia.
Qed.

Lemma testbit_byteZ_high (b : byte) (i : Z) :
  8 <= i -> Z.testbit (byteZ b) i = false.
Proof.
  apply testbit_small. pose proof (AzureProofs.byteZ_range b). lia.
Qed.

(** Bit [j] of the six bits of [val] that start at bit [s]. *)
Lemma testbit_sextet (val s j : Z) :
  0 <= s ->
  Z.testbit (Z.land (Z.shiftr val s) 63) j
  = Z.testbit val (j + s) && ((0 <=? j) && (j <? 6)).
Proof.
  intros Hs. change 63 with (Z.ones 6).
  rewrite Z.land_spec, Z.testbit_ones by lia.
  destruct (Z.leb_spec 0 j) as [Hj|Hj].
  - by rewrite Z.shiftr_spec by lia.
  - cbn [andb]. by rewrite !andb_false_r.
Qed.

Lemma testbit_shiftl (a n m : Z) :
  0 <= n -> Z.testbit (Z.shiftl a n) m = Z.testbit a (m - n) && (0 <=? m).
Proof.
  intros Hn. destruct (Z.leb_spec 0 m).
  - rewrite Z.shiftl_spec by lia. by rewrite andb_true_r.
  - by rewrite !Z.testbit_neg_r by lia.
Qed.

(** The byte that [uint8(v >> s)] gives, from the eight bits of [v] it
    is made of. *)
Lemma Zbyte_shiftr_bits (v s : Z) (b : byte) :
  0 <= s ->
  (forall j, 0 <= j < 8 -> Z.testbit v (j + s) = Z.testbit (byteZ b) j) ->
  Zbyte (Z.shiftr v s) = b.
Proof.
  intros Hs Hbits. apply Zbyte_of_mod.
  change 256 with (2 ^ 8). rewrite <- Z.land_ones by lia.
  apply Z.bits_inj'. intros j Hj.
  rewrite Z.land_spec, Z.testbit_ones_nonneg, Z.shiftr_spec by lia.
  destruct (Z.ltb_spec j 8).
  - rewrite Hbits by lia. apply andb_true_r.
  - rewrite testbit_byteZ_high by lia. apply andb_false_r.
Qed.

(** Every six-bit value is the position of its character. *)
Lemma decodeMap_encodeChar (v : Z) :
  0 <= v < 64 -> decodeMap (encodeChar v) = Some v.
Proof.
  intros Hv.
  assert (Hall : forallb
                   (fun n => match decodeMap (encodeChar (Z.of_nat n)) with
                             | Some v' => v' =? Z.of_nat n
                             | None => false
                             end) (seq 0 64) = true)
    by (vm_compute; reflexivity).
  rewrite forallb_forall in Hall.
  specialize (Hall (Z.to_nat v)). rewrite Z2Nat.id in Hall by lia.
  destruct (decodeMap (encodeChar v)) as [v'|].
  - f_equal. apply Z.eqb_eq, Hall, in_seq. lia.
  - discriminate Hall. apply in_seq. lia.
Qed.

Lemma decodeMap_sextet (val s : Z) :
  decodeMap (sextet val s) = Some (Z.land (Z.shiftr val s) 63).
Proof.
  apply decodeMap_encodeChar. change 63 with (Z.ones 6).
  rewrite Z.land_ones by lia. apply Z.mod_pos_bound. lia.
Qed.

Lemma decodeMap_padChar : decodeMap padChar = None.
Proof. vm_compute. reflexivity. Qed.

(** One step of the decoder on a character of the alphabet. *)
Lemma decodeFrom_char (c : byte) (v : Z) rest si dbuf total :
  decodeMap c = Some v ->
  decodeFrom (c :: rest) si dbuf total =
    if (length dbuf =? 3)%nat then
      match decodeFrom rest (S si) [] total with
      | Ok out => Ok (quantumBytes (dbuf ++ [v]) ++ out)
      | Err e => Err e
      end
    else decodeFrom rest (S si) (dbuf ++ [v]) total.
Proof. intros H. cbn [decodeFrom]. by rewrite H. Qed.

Lemma Encode_three a b c rest :
  Encode (a :: b :: c :: rest) =
    let val := Z.lor (Z.lor (Z.shiftl (byteZ a) 16) (Z.shiftl (byteZ b) 8))
                     (byteZ c) in
    sextet val 18 :: sextet val 12 :: sextet val 6 :: sextet val 0
      :: Encode rest.
Proof. reflexivity. Qed.

Ltac norm_bits j :=
  repeat match goal with
  | |- context [Z.testbit (byteZ ?x) ?e] =>
      lazymatch e with
      | j => fail
      | _ => first [ rewrite (testbit_byteZ_high x e) by lia
                   | rewrite (Z.testbit_neg_r (byteZ x) e) by lia
                   | replace e with j by lia ]
      end
  end.

Ltac byte_bits :=
  let j := fresh "j" in
  let Hj := fresh "Hj" in
  apply Zbyte_shiftr_bits; [lia|];
  intros j Hj;
  rewrite ?Z.lor_spec, ?testbit_shiftl, ?testbit_sextet by lia;
  rewrite ?Z.lor_spec, ?testbit_shiftl by lia;
  rewrite ?Z.testbit_0_l;
  norm_bits j;
  match goal with
  | |- context [Z.testbit (byteZ ?x) j] => destruct (Z.testbit (byteZ x) j)
  end; lia.

(** A full quantum: four characters give back the three bytes. *)
Lemma quantumBytes_three a b c :
  let val := Z.lor (Z.lor (Z.shiftl (byteZ a) 16) (Z.shiftl (byteZ b) 8))
                   (byteZ c) in
  quantumBytes [Z.land (Z.shiftr val 18) 63; Z.land (Z.shiftr val 12) 63;
                Z.land (Z.shiftr val 6) 63; Z.land (Z.shiftr val 0) 63]
  = [a; b; c].
Proof.
  intros val. unfold quantumBytes. cbn [length Nat.sub firstn nth].
  f_equal; [|f_equal; [|f_equal]].
  - subst val. byte_bits.
  - subst val. byte_bits.
  - subst val.
    match goal with |- Zbyte ?v = _ => change (Zbyte (Z.shiftr v 0) = c) end.
    byte_bits.
Qed.

(** Two bytes: three characters and one padding character. *)
Lemma quantumBytes_two a b :
  let val := Z.lor (Z.shiftl (byteZ a) 16) (Z.shiftl (byteZ b) 8) in
  quantumBytes [Z.land (Z.shiftr val 18) 63; Z.land (Z.shiftr val 12) 63;
                Z.land (Z.shiftr val 6) 63]
  = [a; b].
Proof.
  intros val. unfold quantumBytes. cbn [length Nat.sub firstn nth].
  f_equal; [|f_equal].
  - subst val. byte_bits.
  - subst val. byte_bits.
Qed.

(** One byte: two characters and two padding characters. *)
Lemma quantumBytes_one a :
  let val := Z.shiftl (byteZ a) 16 in
  quantumBytes [Z.land (Z.shiftr val 18) 63; Z.land (Z.shiftr val 12) 63]
  = [a].
Proof.
  intros val. unfold quantumBytes. cbn [length Nat.sub firstn nth].
  f_equal. subst val. byte_bits.
Qed.

Lemma list_ind3 {A} (P : list A -> Prop) :
  P [] -> (forall a, P [a]) -> (forall a b, P [a; b]) ->
  (forall a b c l, P l -> P (a :: b :: c :: l)) ->
  forall l, P l.
Proof.
  intros H0 H1 H2 H3.
  assert (H : forall l, P l /\ (forall a, P (a :: l))
                        /\ (forall a b, P (a :: b :: l))).
  { induction l as [|x l (IH0 & IH1 & IH2)]; [by auto|].
    split; [exact (IH1 x)|]. split; [exact (fun a => IH2 a x)|].
    intros a b. by apply H3. }
  intros l. apply H.
Qed.

Lemma decodeFrom_Encode (src : bytes) :
  forall si total, decodeFrom (Encode src) si [] total = Ok src.
Proof.
  induction src as [|a|a b|a b c rest IH] using list_ind3; intros si total.
  - reflexivity.
  - cbn [Encode].
    rewrite (decodeFrom_char _ _ _ _ _ _ (decodeMap_sextet _ 18)).
    cbn [length Nat.eqb app].
    rewrite (decodeFrom_char _ _ _ _ _ _ (decodeMap_sextet _ 12)).
    cbn [length Nat.eqb app].
    cbn [decodeFrom]. rewrite decodeMap_padChar.
    change (isNewline padChar) with false.
    change (Byte.eqb padChar padChar) with true.
    cbn [negb skipNewlines].
    change (isNewline padChar) with false.
    change (Byte.eqb padChar padChar) with true.
    cbn [negb skipNewlines].
    f_equal. apply quantumBytes_one.
  - cbn [Encode].
    rewrite (decodeFrom_char _ _ _ _ _ _ (decodeMap_sextet _ 18)).
    cbn [length Nat.eqb app].
    rewrite (decodeFrom_char _ _ _ _ _ _ (decodeMap_sextet _ 12)).
    cbn [length Nat.eqb app].
    rewrite (decodeFrom_char _ _ _ _ _ _ (decodeMap_sextet _ 6)).
    cbn [length Nat.eqb app].
    cbn [decodeFrom]. rewrite decodeMap_padChar.
    change (isNewline padChar) with false.
    change (Byte.eqb padChar padChar) with true.
    cbn [negb skipNewlines].
    f_equal. apply quantumBytes_two.
  - rewrite Encode_three. cbv zeta.
    rewrite (decodeFrom_char _ _ _ _ _ _ (decodeMap_sextet _ 18)).
    cbn [length Nat.eqb app].
    rewrite (decodeFrom_char _ _ _ _ _ _ (decodeMap_sextet _ 12)).
    cbn [length Nat.eqb app].
    rewrite (decodeFrom_char _ _ _ _ _ _ (decodeMap_sextet _ 6)).
    cbn [length Nat.eqb app].
    rewrite (decodeFrom_char _ _ _ _ _ _ (decodeMap_sextet _ 0)).
    cbn [length Nat.eqb app].
    rewrite IH. f_equal.
    exact (f_equal (fun l => l ++ rest) (quantumBytes_three a b c)).
Qed.

(** Decoding the standard base64 encoding of any byte string gives the
    byte string back, without error. *)
Theorem DecodeString_EncodeToString (src : bytes) :
  DecodeString (EncodeToString src) = Ok src.
Proof.
  unfold DecodeString, EncodeToString.
  rewrite list_byte_of_string_of_list_byte. apply decodeFrom_Encode.
Qed.

End Base64Proofs.

(** * More on the storage backend: round trips, isolation, errors *)

Module StorageProofs.

Import Tekton TektonSpec TektonProofs.

Section Formats.

Variables PayloadTypeTekton PayloadTypeInTotoIte6 : PayloadType.

Local Abbreviation payloadKey := (payloadKey PayloadTypeTekton PayloadTypeInTotoIte6).
Local Abbreviation StorePayload := (StorePayload PayloadTypeTekton PayloadTypeInTotoIte6).
Local Abbreviation RetrievePayload :=
  (RetrievePayload PayloadTypeTekton PayloadTypeInTotoIte6).

Lemma payloadKey_Err opts e :
  payloadKey opts = Err e → e = ErrUnsupportedPayload (PayloadFormat opts).
Proof.
  unfold Tekton.payloadKey.
  destruct (String.eqb _ PayloadTypeTekton); [discriminate|].
  destruct (String.eqb _ PayloadTypeInTotoIte6); [discriminate|].
  by intros [= <-].
Qed.

(** The record a successful StorePayload leaves in the store. *)
Lemma stored_record b rawPayload signature opts c c' :
  StorePayload b rawPayload signature opts c = (None, c') →
  ∃ pk tr0,
    payloadKey opts = Ok pk
    ∧ taskruns c !! (Namespace (tr b), Name (tr b)) = Some tr0
    ∧ taskruns c' !! (Namespace (tr b), Name (tr b))
      = Some {| Namespace := Namespace tr0; Name := Name tr0;
                Annotations :=
                  patchMapOf rawPayload signature opts pk
                  ∪ Annotations tr0 |}
    ∧ refuses c' = refuses c.
Proof.
  intros Hstore.
  destruct (StorePayload_success _ _ _ _ _ _ _ _ Hstore)
    as (pk & tr0 & Hpk & Htr & _ & ->).
  exists pk, tr0. cbn [taskruns refuses].
  split; [done|]. split; [done|]. split; [apply lookup_insert_eq | done].
Qed.

Lemma stored_record_at b rawPayload signature opts c c' pk :
  StorePayload b rawPayload signature opts c = (None, c') →
  payloadKey opts = Ok pk →
  ∃ tr0,
    taskruns c !! (Namespace (tr b), Name (tr b)) = Some tr0
    ∧ taskruns c' !! (Namespace (tr b), Name (tr b))
      = Some {| Namespace := Namespace tr0; Name := Name tr0;
                Annotations :=
                  patchMapOf rawPayload signature opts pk
                  ∪ Annotations tr0 |}
    ∧ refuses c' = refuses c.
Proof.
  intros Hstore Hpk.
  destruct (stored_record _ _ _ _ _ _ Hstore) as (pk' & tr0 & Hpk' & H).
  generalize dependent (payloadKey opts). intros r -> [= <-]. eauto.
Qed.

(** The result of a retrieval is settled by the store's answer to the
    Get and by the record's value at the key. *)
Lemma retrieve_fst_same b k c1 c2 tr1 tr2 :
  refuses c1 (ApiGet TODO (Namespace (tr b)) (Name (tr b)))
  = refuses c2 (ApiGet TODO (Namespace (tr b)) (Name (tr b))) →
  taskruns c1 !! (Namespace (tr b), Name (tr b)) = Some tr1 →
  taskruns c2 !! (Namespace (tr b), Name (tr b)) = Some tr2 →
  Annotations tr1 !! k = Annotations tr2 !! k →
  fst (retrieveAnnotationValue b k true c1)
  = fst (retrieveAnnotationValue b k true c2).
Proof.
  intros Hr H1 H2 Hk. unfold retrieveAnnotationValue, Get.
  rewrite Hr, H1, H2. destruct (refuses c2 _); [reflexivity|].
  rewrite Hk. destruct (Annotations tr2 !! k) as [raw|]; [|reflexivity].
  by destruct (base64.DecodeString raw).
Qed.

(** A value that was stored as base64 under a key comes back decoded. *)
Lemma retrieve_encoded b k c tr0 (v : bytes) :
  refuses c (ApiGet TODO (Namespace (tr b)) (Name (tr b))) = None →
  taskruns c !! (Namespace (tr b), Name (tr b)) = Some tr0 →
  Annotations tr0 !! k = Some (encode v) →
  fst (retrieveAnnotationValue b k true c) = Ok (string_of_list_byte v).
Proof.
  intros Href Htr Hk.
  rewrite (retrieveAnnotationValue_run b k c tr0 Href Htr). cbn [fst].
  rewrite Hk. unfold encode.
  by rewrite Base64Proofs.DecodeString_EncodeToString.
Qed.

Lemma RetrievePayload_fst b opts c pk :
  payloadKey opts = Ok pk →
  fst (RetrievePayload b opts c) = fst (retrieveAnnotationValue b pk true c).
Proof.
  intros Hpk. unfold Tekton.RetrievePayload. rewrite Hpk.
  by destruct (retrieveAnnotationValue b pk true c) as [[v|e] c'].
Qed.

Lemma RetrieveSignature_fst b opts c :
  fst (RetrieveSignature b opts c)
  = fst (retrieveAnnotationValue b (signatureKey opts) true c).
Proof. unfold RetrieveSignature, signatureKey. reflexivity. Qed.

Lemma stored_payload_retrieved b rawPayload signature opts c c' c'' :
  StorePayload b rawPayload signature opts c = (None, c') →
  taskruns c'' = taskruns c' →
  refuses c'' (ApiGet TODO (Namespace (tr b)) (Name (tr b))) = None →
  fst (RetrievePayload b opts c'') = Ok (string_of_list_byte rawPayload).
Proof.
  intros Hstore Ht Href.
  destruct (stored_record _ _ _ _ _ _ Hstore)
    as (pk & tr0 & Hpk & _ & Htr' & _).
  rewrite <- Ht in Htr'.
  destruct (patchMapOf_lookup _ _ rawPayload signature opts pk Hpk)
    as (Lp & _).
  rewrite (RetrievePayload_fst b opts c'' pk Hpk).
  apply (retrieve_encoded b pk c'' _ rawPayload Href Htr').
  cbn [Annotations]. exact (lookup_union_Some_l _ _ _ _ Lp).
Qed.

Lemma stored_signature_retrieved b rawPayload signature opts c c' c'' :
  StorePayload b rawPayload signature opts c = (None, c') →
  taskruns c'' = taskruns c' →
  refuses c'' (ApiGet TODO (Namespace (tr b)) (Name (tr b))) = None →
  fst (RetrieveSignature b opts c'') = Ok signature.
Proof.
  intros Hstore Ht Href.
  destruct (stored_record _ _ _ _ _ _ Hstore)
    as (pk & tr0 & Hpk & _ & Htr' & _).
  rewrite <- Ht in Htr'.
  destruct (patchMapOf_lookup _ _ rawPayload signature opts pk Hpk)
    as (_ & _ & _ & Ls & _).
  rewrite RetrieveSignature_fst.
  rewrite (retrieve_encoded b (signatureKey opts) c'' _
             (list_byte_of_string signature) Href Htr').
  - f_equal. apply string_of_list_byte_of_string.
  - cbn [Annotations]. exact (lookup_union_Some_l _ _ _ _ Ls).
Qed.

(** X1: after a StorePayload that succeeded, on any store that holds the
    records it left and answers the Get, RetrievePayload with the same
    options returns the payload that was stored, byte for byte, and
    RetrieveSignature returns the signature that was stored: whatever the
    payload, the signature and the annotations the record had before. *)
Theorem store_then_retrieve b rawPayload signature opts c c' c'' :
  StorePayload b rawPayload signature opts c = (None, c') →
  taskruns c'' = taskruns c' →
  refuses c'' (ApiGet TODO (Namespace (tr b)) (Name (tr b))) = None →
  fst (RetrievePayload b opts c'') = Ok (string_of_list_byte rawPayload)
  ∧ fst (RetrieveSignature b opts c'') = Ok signature.
Proof.
  intros Hstore Ht Href. split.
  - exact (stored_payload_retrieved _ _ _ _ _ _ _ Hstore Ht Href).
  - exact (stored_signature_retrieved _ _ _ _ _ _ _ Hstore Ht Href).
Qed.

(** X2: a StorePayload that succeeded under one slot-key changes nothing
    of what RetrieveSignature and RetrievePayload return for options with
    another slot-key, whatever their payload format. *)
Theorem store_keeps_other_slots b rawPayload signature opts opts2 c c' :
  StorePayload b rawPayload signature opts c = (None, c') →
  Key opts2 ≠ Key opts →
  fst (RetrieveSignature b opts2 c') = fst (RetrieveSignature b opts2 c)
  ∧ fst (RetrievePayload b opts2 c') = fst (RetrievePayload b opts2 c).
Proof.
  intros Hstore Hslot.
  destruct (stored_record _ _ _ _ _ _ Hstore)
    as (pk & tr0 & Hpk & Htr & Htr' & Hrefuses).
  destruct (patchMapOf_lookup _ _ rawPayload signature opts pk Hpk)
    as (_ & _ & _ & _ & Lother).
  assert (Hframe : ∀ format, format ∈ annotationFormats →
            fst (retrieveAnnotationValue b (fmt.Sprintf format [Key opts2])
                   true c')
            = fst (retrieveAnnotationValue b (fmt.Sprintf format [Key opts2])
                     true c)).
  { intros format Hin.
    apply (retrieve_fst_same b _ c' c _ tr0 (f_equal (λ f, f _) Hrefuses)
             Htr' Htr).
    cbn [Annotations]. apply lookup_union_r, Lother.
    assert (Hother : ∀ format', format' ∈ annotationFormats →
              fmt.Sprintf format [Key opts2]
              ≠ fmt.Sprintf format' [Key opts]).
    { intros format' Hin'. exact (other_slot_key _ _ _ _ Hin Hin' Hslot). }
    rewrite !not_elem_of_cons. unfold signatureKey, certKey, chainKey.
    split; [apply (Hother SignatureAnnotationFormat); in_formats|].
    split; [apply (Hother CertAnnotationsFormat); in_formats|].
    split; [apply (Hother ChainAnnotationFormat); in_formats|].
    split; [|apply not_elem_of_nil].
    destruct (payloadKey_Ok _ _ _ _ Hpk) as [-> | ->];
      [apply (Hother TaskRunAnnotationFormat)
      |apply (Hother AttestationAnnotationFormat)]; in_formats. }
  split.
  - unfold RetrieveSignature. apply Hframe. in_formats.
  - destruct (payloadKey opts2) as [pk2|e] eqn:Hpk2.
    + rewrite !(RetrievePayload_fst b opts2 _ pk2 Hpk2).
      destruct (payloadKey_Ok _ _ _ _ Hpk2) as [-> | ->];
        apply Hframe; in_formats.
    + unfold Tekton.RetrievePayload. by rewrite Hpk2.
Qed.

(** X3: under one slot-key, a payload stored in the native format and
    one stored afterwards in the attestation format are kept side by
    side, each returned by RetrievePayload for its format; the signature
    is kept once per slot-key, so RetrieveSignature returns the second
    signature and the first one is gone. *)
Theorem two_formats_share_the_signature
    b p1 s1 opts1 p2 s2 opts2 c c1 c2 :
  PayloadTypeTekton ≠ PayloadTypeInTotoIte6 →
  PayloadFormat opts1 = PayloadTypeTekton →
  PayloadFormat opts2 = PayloadTypeInTotoIte6 →
  Key opts1 = Key opts2 →
  StorePayload b p1 s1 opts1 c = (None, c1) →
  StorePayload b p2 s2 opts2 c1 = (None, c2) →
  refuses c2 (ApiGet TODO (Namespace (tr b)) (Name (tr b))) = None →
  fst (RetrievePayload b opts1 c2) = Ok (string_of_list_byte p1)
  ∧ fst (RetrievePayload b opts2 c2) = Ok (string_of_list_byte p2)
  ∧ fst (RetrieveSignature b opts1 c2) = Ok s2
  ∧ fst (RetrieveSignature b opts2 c2) = Ok s2.
Proof.
  intros Hformats Hf1 Hf2 Hkey Hstore1 Hstore2 Href.
  pose proof (stored_payload_retrieved _ _ _ _ _ _ _ Hstore2 eq_refl Href)
    as Hp2.
  pose proof (stored_signature_retrieved _ _ _ _ _ _ _ Hstore2 eq_refl Href)
    as Hs2.
  assert (Hsig : fst (RetrieveSignature b opts1 c2) = Ok s2).
  { unfold RetrieveSignature in *. rewrite Hkey. exact Hs2. }
  split; [|by auto].
  set (pk1 := fmt.Sprintf TaskRunAnnotationFormat [Key opts1]).
  set (pk2 := fmt.Sprintf AttestationAnnotationFormat [Key opts2]).
  assert (Hpk1 : payloadKey opts1 = Ok pk1).
  { unfold Tekton.payloadKey. rewrite Hf1, String.eqb_refl. reflexivity. }
  assert (Hpk2 : payloadKey opts2 = Ok pk2).
  { unfold Tekton.payloadKey. rewrite Hf2, String.eqb_refl.
    apply not_eq_sym, String.eqb_neq in Hformats. rewrite Hformats.
    reflexivity. }
  destruct (stored_record_at _ _ _ _ _ _ _ Hstore1 Hpk1)
    as (tr0 & _ & Htr1 & _).
  destruct (stored_record_at _ _ _ _ _ _ _ Hstore2 Hpk2)
    as (tr1 & Htr1' & Htr2 & _).
  rewrite Htr1 in Htr1'. apply Some_inj in Htr1'. subst tr1.
  cbn [Annotations Namespace Name] in Htr2.
  destruct (patchMapOf_lookup _ _ p1 s1 opts1 pk1 Hpk1) as (Lp1 & _).
  destruct (patchMapOf_lookup _ _ p2 s2 opts2 pk2 Hpk2)
    as (_ & _ & _ & _ & Lother).
  rewrite (RetrievePayload_fst b opts1 c2 pk1 Hpk1).
  apply (retrieve_encoded b pk1 c2 _ p1 Href Htr2). cbn [Annotations].
  rewrite lookup_union_r; [exact (lookup_union_Some_l _ _ _ _ Lp1)|].
  apply Lother. rewrite !not_elem_of_cons.
  unfold signatureKey, certKey, chainKey, pk1, pk2. rewrite Hkey.
  repeat split; [| | | |apply not_elem_of_nil];
    apply format_key_disjoint; try in_formats; discriminate.
Qed.

(** X4: a StorePayload that returns an error returns either the
    unsupported-format error, having sent no request and handing the
    store back as it received it, or the error that the store gave for
    the one merge patch that was sent, as the store gave it; the store is
    then as that one patch request left it: nothing is undone and nothing
    is sent again, and the error does not tell whether the patch was
    applied. *)
Theorem StorePayload_error b rawPayload signature opts c e :
  fst (StorePayload b rawPayload signature opts c) = Some e →
  let c' := snd (StorePayload b rawPayload signature opts c) in
  (e = ErrUnsupportedPayload (PayloadFormat opts) ∧ c' = c)
  ∨ ∃ pk cause,
      payloadKey opts = Ok pk
      ∧ e = ErrStore cause
      ∧ Patch TODO (Namespace (tr b)) (Name (tr b)) MergePatchType
          (patchMapOf rawPayload signature opts pk) c = (Err cause, c')
      ∧ newRequests c c'
        = [ApiPatch TODO (Namespace (tr b)) (Name (tr b)) MergePatchType
             (patchMapOf rawPayload signature opts pk)].
Proof.
  rewrite StorePayload_unfold.
  destruct (payloadKey opts) as [pk|e'] eqn:Hpk.
  - pose proof (ContextProofs.Patch_requests TODO (Namespace (tr b))
                  (Name (tr b)) MergePatchType
                  (patchMapOf rawPayload signature opts pk) c) as Hreq.
    destruct (Patch _ _ _ _ _ c) as [[t|cause] c1] eqn:HP; [discriminate|].
    cbn [fst snd] in *. intros [= <-].
    right. exists pk, cause.
    split; [reflexivity|]. split; [reflexivity|].
    split; [exact HP|].
    exact (ContextProofs.newRequests_app _ _ _ Hreq).
  - cbn [fst snd]. intros [= <-]. left.
    split; [by apply payloadKey_Err | reflexivity].
Qed.

(** X5: with a payload format that is neither the native nor the
    attestation one, RetrievePayload returns the unsupported-format
    error without a request to the store, while RetrieveSignature, which
    does not look at the format, still asks the store for the record. *)
Theorem RetrievePayload_unsupported_format b opts c :
  PayloadFormat opts ≠ PayloadTypeTekton →
  PayloadFormat opts ≠ PayloadTypeInTotoIte6 →
  RetrievePayload b opts c
  = (Err (ErrUnsupportedPayload (PayloadFormat opts)), c)
  ∧ newRequests c (snd (RetrieveSignature b opts c))
    = [ApiGet TODO (Namespace (tr b)) (Name (tr b))].
Proof.
  intros H1 H2. split.
  - unfold Tekton.RetrievePayload.
    by rewrite (payloadKey_unsupported _ _ opts H1 H2).
  - apply ContextProofs.newRequests_app.
    apply ContextProofs.retrieveAnnotationValue_requests.
Qed.

Lemma retrieveAnnotationValue_readonly b k decode c :
  taskruns (snd (retrieveAnnotationValue b k decode c)) = taskruns c
  ∧ refuses (snd (retrieveAnnotationValue b k decode c)) = refuses c.
Proof.
  unfold retrieveAnnotationValue, Get.
  destruct (refuses c _); [done|].
  destruct (taskruns c !! _) as [t|]; [|done].
  destruct (Annotations t !! k) as [raw|]; [|done].
  destruct decode; [|done].
  by destruct (base64.DecodeString raw).
Qed.

(** X6: RetrieveSignature and RetrievePayload only read: whatever they
    return, every record of the store is as it was before the call. *)
Theorem retrieval_changes_no_record b opts c :
  taskruns (snd (RetrieveSignature b opts c)) = taskruns c
  ∧ taskruns (snd (RetrievePayload b opts c)) = taskruns c.
Proof.
  split.
  - apply retrieveAnnotationValue_readonly.
  - unfold Tekton.RetrievePayload.
    destruct (payloadKey opts) as [pk|e]; [|reflexivity].
    pose proof (proj1 (retrieveAnnotationValue_readonly b pk true c)) as H.
    by destruct (retrieveAnnotationValue b pk true c) as [[v|e] c'].
Qed.

(** X7: when the store does not hand out the record (it refuses the Get,
    or holds no such TaskRun), RetrieveSignature and, for a supported
    format, RetrievePayload return the retrieval error with the store's
    cause, whatever the annotations are. *)
Theorem retrieval_without_record b opts c cause :
  fst (Get TODO (Namespace (tr b)) (Name (tr b)) c) = Err cause →
  fst (RetrieveSignature b opts c) = Err (ErrRetrievingTaskrun cause)
  ∧ (isOk (payloadKey opts) = true →
     fst (RetrievePayload b opts c) = Err (ErrRetrievingTaskrun cause)).
Proof.
  intros HGet.
  assert (H : ∀ k, fst (retrieveAnnotationValue b k true c)
                   = Err (ErrRetrievingTaskrun cause)).
  { intros k. unfold retrieveAnnotationValue.
    destruct (Get TODO (Namespace (tr b)) (Name (tr b)) c) as [[t|e] c'];
      [discriminate|].
    cbn [fst] in *. by injection HGet as ->. }
  split; [apply H|].
  destruct (payloadKey opts) as [pk|e] eqn:Hpk; [|discriminate].
  intros _. by rewrite (RetrievePayload_fst b opts c pk Hpk).
Qed.

(** X8: a payload annotation that is present but is not valid base64
    makes RetrievePayload return a decoding error that names the payload
    key of the options' format. *)
Theorem RetrievePayload_corrupt b opts c tr0 pk raw :
  refuses c (ApiGet TODO (Namespace (tr b)) (Name (tr b))) = None →
  taskruns c !! (Namespace (tr b), Name (tr b)) = Some tr0 →
  payloadKey opts = Ok pk →
  Annotations tr0 !! pk = Some raw →
  isOk (base64.DecodeString raw) = false →
  ∃ e, fst (RetrievePayload b opts c) = Err e ∧ errorNames e pk.
Proof.
  intros Href Htr Hpk Hraw Hbad.
  rewrite (RetrievePayload_fst b opts c pk Hpk).
  rewrite (retrieveAnnotationValue_run b pk c tr0 Href Htr). cbn [fst].
  rewrite Hraw.
  destruct (base64.DecodeString raw) as [v|cause]; [discriminate|].
  eexists. split; [reflexivity|]. by exists cause.
Qed.

(** X9: without decoding, retrieveAnnotationValue returns the text of
    the annotation as the store holds it, the empty string when the key
    is absent and the retrieval error when the Get fails, and never a
    decoding error. With decoding it returns the same retrieval error
    and the same empty string for an absent key, and for a present key
    the decoded text, or the decoding error for that key: in every case
    what it returns without decoding, decoded. *)
Theorem decode_flag b k c :
  let get := fst (Get TODO (Namespace (tr b)) (Name (tr b)) c) in
  let raw := fst (retrieveAnnotationValue b k false c) in
  let decoded := fst (retrieveAnnotationValue b k true c) in
  (∀ cause, get = Err cause →
     raw = Err (ErrRetrievingTaskrun cause)
     ∧ decoded = Err (ErrRetrievingTaskrun cause))
  ∧ (∀ tr0, get = Ok tr0 → Annotations tr0 !! k = None →
       raw = Ok ""%string ∧ decoded = Ok ""%string)
  ∧ (∀ tr0 text, get = Ok tr0 → Annotations tr0 !! k = Some text →
       raw = Ok text
       ∧ decoded = match base64.DecodeString text with
                   | Ok bs => Ok (string_of_list_byte bs)
                   | Err cause => Err (ErrDecodingAnnotation k cause)
                   end)
  ∧ (∀ k' cause, raw ≠ Err (ErrDecodingAnnotation k' cause))
  ∧ decoded = match raw with
              | Ok text =>
                  match base64.DecodeString text with
                  | Ok bs => Ok (string_of_list_byte bs)
                  | Err cause => Err (ErrDecodingAnnotation k cause)
                  end
              | Err e => Err e
              end.
Proof.
  cbv zeta. unfold retrieveAnnotationValue.
  destruct (Get TODO (Namespace (tr b)) (Name (tr b)) c) as [[t|e] c'];
    cbn [fst].
  - split; [discriminate|].
    destruct (Annotations t !! k) as [text|] eqn:Hk; cbn [fst].
    + split; [intros tr0 [= <-]; congruence|].
      split.
      { intros tr0 text' [= <-]. rewrite Hk. intros [= <-].
        split; [reflexivity|]. by destruct (base64.DecodeString text). }
      split; [discriminate|]. by destruct (base64.DecodeString text).
    + split; [intros tr0 [= <-] _; split; reflexivity|].
      split; [intros tr0 text [= <-]; congruence|].
      split; [discriminate | reflexivity].
  - split; [intros cause [= <-]; split; reflexivity|].
    split; [discriminate|]. split; [discriminate|].
    split; [discriminate | reflexivity].
Qed.

(** X10: the backend's own copy of the TaskRun only names the record:
    two backends for the same namespace and name store and retrieve
    alike, whatever annotations their copies hold. *)
Theorem only_namespace_and_name_matter b1 b2 rawPayload signature opts c :
  Namespace (tr b1) = Namespace (tr b2) →
  Name (tr b1) = Name (tr b2) →
  StorePayload b1 rawPayload signature opts c
  = StorePayload b2 rawPayload signature opts c
  ∧ RetrieveSignature b1 opts c = RetrieveSignature b2 opts c
  ∧ RetrievePayload b1 opts c = RetrievePayload b2 opts c.
Proof.
  intros Hns Hname.
  assert (H : ∀ k, retrieveAnnotationValue b1 k true c
                   = retrieveAnnotationValue b2 k true c).
  { intros k. unfold retrieveAnnotationValue. by rewrite Hns, Hname. }
  split; [|split].
  - rewrite !StorePayload_unfold. by rewrite Hns, Hname.
  - apply H.
  - unfold Tekton.RetrievePayload.
    destruct (payloadKey opts) as [pk|e]; [|reflexivity]. by rewrite H.
Qed.

End Formats.

Lemma store_then_retrieve_witness :
  let b := NewStorageBackend (taskRun "ns" "build" ∅) in
  let opts := exampleOpts "step1" "in-toto" in
  let c := clusterWith "ns" "build" {[ "owner" := "team" ]} in
  let c' := snd (StorePayload "tekton" "in-toto" b
                   (list_byte_of_string "attested") "sig" opts c) in
  fst (RetrievePayload "tekton" "in-toto" b opts c')
  = Ok (string_of_list_byte (list_byte_of_string "attested"))
  ∧ fst (RetrieveSignature b opts c') = Ok "sig"%string.
Proof.
  intros b opts c c'.
  apply (store_then_retrieve "tekton" "in-toto" b
           (list_byte_of_string "attested") "sig" opts c c' c');
    [vm_compute; reflexivity | reflexivity | reflexivity].
Defined.

Lemma store_keeps_other_slots_witness :
  let b := NewStorageBackend (taskRun "ns" "build" ∅) in
  let opts := exampleOpts "step1" "tekton" in
  let opts2 := exampleOpts "step2" "in-toto" in
  let c := clusterWith "ns" "build"
             {[ "chains.tekton.dev/signature-step2" := "b2xk" ]} in
  let c' := snd (StorePayload "tekton" "in-toto" b (list_byte_of_string "p")
                   "s" opts c) in
  fst (RetrieveSignature b opts2 c') = fst (RetrieveSignature b opts2 c)
  ∧ fst (RetrievePayload "tekton" "in-toto" b opts2 c')
    = fst (RetrievePayload "tekton" "in-toto" b opts2 c).
Proof.
  intros b opts opts2 c c'.
  apply (store_keeps_other_slots "tekton" "in-toto" b
           (list_byte_of_string "p") "s" opts opts2 c c');
    [vm_compute; reflexivity | discriminate].
Defined.

Lemma two_formats_share_the_signature_witness :
  let b := NewStorageBackend (taskRun "ns" "build" ∅) in
  let opts1 := exampleOpts "step1" "tekton" in
  let opts2 := exampleOpts "step1" "in-toto" in
  let c := clusterWith "ns" "build" ∅ in
  let c1 := snd (StorePayload "tekton" "in-toto" b
                   (list_byte_of_string "run") "s1" opts1 c) in
  let c2 := snd (StorePayload "tekton" "in-toto" b
                   (list_byte_of_string "att") "s2" opts2 c1) in
  fst (RetrievePayload "tekton" "in-toto" b opts1 c2)
  = Ok (string_of_list_byte (list_byte_of_string "run"))
  ∧ fst (RetrievePayload "tekton" "in-toto" b opts2 c2)
    = Ok (string_of_list_byte (list_byte_of_string "att"))
  ∧ fst (RetrieveSignature b opts1 c2) = Ok "s2"%string
  ∧ fst (RetrieveSignature b opts2 c2) = Ok "s2"%string.
Proof.
  intros b opts1 opts2 c c1 c2.
  apply (two_formats_share_the_signature "tekton" "in-toto" b
           (list_byte_of_string "run") "s1" opts1
           (list_byte_of_string "att") "s2" opts2 c c1 c2);
    [discriminate | reflexivity | reflexivity | reflexivity
    | vm_compute; reflexivity | vm_compute; reflexivity | reflexivity].
Defined.

Lemma StorePayload_error_witness :
  let b := NewStorageBackend (taskRun "ns" "build" ∅) in
  let opts := exampleOpts "step1" "tekton" in
  let c := readOnlyCluster "ns" "build" {[ "owner" := "team" ]} in
  let c' := snd (StorePayload "tekton" "in-toto" b (list_byte_of_string "p")
                   "s" opts c) in
  (ErrStore "forbidden" = ErrUnsupportedPayload (PayloadFormat opts)
   ∧ c' = c)
  ∨ ∃ pk cause,
      payloadKey "tekton" "in-toto" opts = Ok pk
      ∧ ErrStore "forbidden" = ErrStore cause
      ∧ Patch TODO (Namespace (tr b)) (Name (tr b)) MergePatchType
          (patchMapOf (list_byte_of_string "p") "s" opts pk) c
        = (Err cause, c')
      ∧ newRequests c c'
        = [ApiPatch TODO (Namespace (tr b)) (Name (tr b)) MergePatchType
             (patchMapOf (list_byte_of_string "p") "s" opts pk)].
Proof.
  intros b opts c.
  apply (StorePayload_error "tekton" "in-toto" b (list_byte_of_string "p")
           "s" opts c (ErrStore "forbidden")).
  vm_compute. reflexivity.
Defined.

(** An error of StorePayload with the patch applied: the store applied
    the patch and its answer was lost; StorePayload returns that error
    and the payload is on the record. *)
Lemma lost_answer_leaves_the_patch :
  let b := NewStorageBackend (taskRun "ns" "build" ∅) in
  let opts := exampleOpts "step1" "tekton" in
  let r := StorePayload "tekton" "in-toto" b (list_byte_of_string "p") "s"
             opts (lossyCluster "ns" "build" ∅) in
  fst r = Some (ErrStore "timeout")
  ∧ fst (RetrievePayload "tekton" "in-toto" b opts (snd r)) = Ok "p"%string.
Proof. split; vm_compute; reflexivity. Qed.

Lemma RetrievePayload_unsupported_format_witness :
  let b := NewStorageBackend (taskRun "ns" "build" ∅) in
  let opts := exampleOpts "step1" "simplesigning" in
  let c := clusterWith "ns" "build" ∅ in
  RetrievePayload "tekton" "in-toto" b opts c
  = (Err (ErrUnsupportedPayload "simplesigning"), c)
  ∧ newRequests c (snd (RetrieveSignature b opts c))
    = [ApiGet TODO "ns" "build"].
Proof.
  apply (RetrievePayload_unsupported_format "tekton" "in-toto"
           (NewStorageBackend (taskRun "ns" "build" ∅))
           (exampleOpts "step1" "simplesigning")
           (clusterWith "ns" "build" ∅));
    discriminate.
Defined.

Lemma retrieval_without_record_witness :
  let b := NewStorageBackend (taskRun "ns" "gone" ∅) in
  let opts := exampleOpts "step1" "tekton" in
  let c := clusterWith "ns" "build" ∅ in
  fst (RetrieveSignature b opts c)
  = Err (ErrRetrievingTaskrun "not found")
  ∧ (isOk (payloadKey "tekton" "in-toto" opts) = true →
     fst (RetrievePayload "tekton" "in-toto" b opts c)
     = Err (ErrRetrievingTaskrun "not found")).
Proof.
  intros b opts c.
  apply (retrieval_without_record "tekton" "in-toto" b opts c "not found").
  vm_compute. reflexivity.
Defined.

Lemma RetrievePayload_corrupt_witness :
  let b := NewStorageBackend (taskRun "ns" "build" ∅) in
  let opts := exampleOpts "step1" "tekton" in
  let c := clusterWith "ns" "build"
             {[ "chains.tekton.dev/taskrun-step1" := "!!!" ]} in
  ∃ e, fst (RetrievePayload "tekton" "in-toto" b opts c) = Err e
       ∧ errorNames e "chains.tekton.dev/taskrun-step1".
Proof.
  intros b opts c.
  apply (RetrievePayload_corrupt "tekton" "in-toto" b opts c
           (taskRun "ns" "build"
              {[ "chains.tekton.dev/taskrun-step1" := "!!!" ]})
           "chains.tekton.dev/taskrun-step1" "!!!");
    vm_compute; reflexivity.
Defined.

Lemma only_namespace_and_name_matter_witness :
  let b1 := NewStorageBackend (taskRun "ns" "build" ∅) in
  let b2 := NewStorageBackend (taskRun "ns" "build" {[ "stale" := "x" ]}) in
  let opts := exampleOpts "step1" "tekton" in
  let c := clusterWith "ns" "build" ∅ in
  StorePayload "tekton" "in-toto" b1 [] "s" opts c
  = StorePayload "tekton" "in-toto" b2 [] "s" opts c
  ∧ RetrieveSignature b1 opts c = RetrieveSignature b2 opts c
  ∧ RetrievePayload "tekton" "in-toto" b1 opts c
    = RetrievePayload "tekton" "in-toto" b2 opts c.
Proof.
  intros b1 b2 opts c.
  apply (only_namespace_and_name_matter "tekton" "in-toto" b1 b2 [] "s"
           opts c); reflexivity.
Defined.

End StorageProofs.

(** * The signature format: from raw to DER and back, for every input *)

Module DerProofs.

Import Azure AzureSpec.

Lemma byteZ_Zbyte (z : Z) : byteZ (Zbyte z) = z mod 256.
Proof.
  unfold Zbyte, byteZ.
  pose proof (Z.mod_pos_bound z 256 ltac:(lia)) as Hz.
  destruct (Byte.of_N (Z.to_N (z mod 256))) as [b|] eqn:E.
  - apply Byte.to_of_N in E. rewrite E. lia.
  - apply Byte.of_N_None_iff in E. lia.
Qed.

Lemma byteZ_Zbyte_small (z : Z) : 0 <= z < 256 -> byteZ (Zbyte z) = z.
Proof. intros Hz. rewrite byteZ_Zbyte. apply Z.mod_small, Hz. Qed.

(** ** math/big *)

Lemma fold_step (bs : bytes) (acc : Z) :
  fold_left (fun acc b => acc * 256 + byteZ b) bs acc
  = acc * 256 ^ Z.of_nat (length bs) + big.SetBytes bs.
Proof.
  unfold big.SetBytes. revert acc.
  induction bs as [|b bs IH]; intros acc.
  - cbn. lia.
  - cbn [fold_left length]. rewrite IH, (IH (0 * 256 + byteZ b)).
    rewrite Nat2Z.inj_succ, Z.pow_succ_r by lia. lia.
Qed.

Lemma SetBytes_cons (b : byte) (bs : bytes) :
  big.SetBytes (b :: bs)
  = byteZ b * 256 ^ Z.of_nat (length bs) + big.SetBytes bs.
Proof.
  unfold big.SetBytes at 1. cbn [fold_left]. rewrite fold_step. lia.
Qed.

Lemma SetBytes_snoc (bs : bytes) (b : byte) :
  big.SetBytes (bs ++ [b]) = big.SetBytes bs * 256 + byteZ b.
Proof. unfold big.SetBytes. by rewrite fold_left_app. Qed.

Lemma SetBytes_nonneg (bs : bytes) : 0 <= big.SetBytes bs.
Proof.
  induction bs as [|b bs IH] using rev_ind; [done|].
  rewrite SetBytes_snoc. pose proof (AzureProofs.byteZ_range b). lia.
Qed.

Lemma noLeadingZero_strip (bs : bytes) : noLeadingZero (stripLeadingZeros bs).
Proof.
  induction bs as [|b bs IH]; [exact I|].
  cbn [stripLeadingZeros]. destruct (Z.eqb_spec (byteZ b) 0); [exact IH|].
  assumption.
Qed.

Lemma strip_noLeadingZero (bs : bytes) :
  noLeadingZero bs -> stripLeadingZeros bs = bs.
Proof.
  destruct bs as [|b bs]; [reflexivity|]. cbn. intros H.
  by destruct (Z.eqb_spec (byteZ b) 0).
Qed.

Lemma SetBytes_strip (bs : bytes) :
  big.SetBytes (stripLeadingZeros bs) = big.SetBytes bs.
Proof.
  induction bs as [|b bs IH]; [reflexivity|].
  cbn [stripLeadingZeros]. destruct (Z.eqb_spec (byteZ b) 0) as [H0|]; [|done].
  rewrite IH, SetBytes_cons, H0. lia.
Qed.

Lemma SetBytes_lower (b : byte) (bs : bytes) :
  byteZ b <> 0 -> 256 ^ Z.of_nat (length bs) <= big.SetBytes (b :: bs).
Proof.
  intros Hb. rewrite SetBytes_cons.
  pose proof (AzureProofs.byteZ_range b). pose proof (SetBytes_nonneg bs).
  assert (0 < 256 ^ Z.of_nat (length bs)) by (apply Z.pow_pos_nonneg; lia).
  nia.
Qed.

Lemma noLeadingZero_SetBytes_0 (bs : bytes) :
  noLeadingZero bs -> big.SetBytes bs = 0 -> bs = [].
Proof.
  destruct bs as [|b bs]; [done|]. intros Hb H0.
  pose proof (SetBytes_lower b bs Hb).
  assert (0 < 256 ^ Z.of_nat (length bs)) by (apply Z.pow_pos_nonneg; lia).
  lia.
Qed.

Lemma noLeadingZero_snoc (bs : bytes) (b : byte) :
  noLeadingZero (bs ++ [b]) -> noLeadingZero bs.
Proof. by destruct bs. Qed.

Lemma natBytes_0 (fuel : nat) (acc : bytes) : big.natBytes fuel 0 acc = acc.
Proof. by destruct fuel. Qed.

(** The digits of the value of a byte string without leading zero are
    its bytes. *)
Lemma natBytes_SetBytes (bs : bytes) :
  forall (fuel : nat) (acc : bytes),
    noLeadingZero bs -> (length bs <= fuel)%nat ->
    big.natBytes fuel (big.SetBytes bs) acc = bs ++ acc.
Proof.
  induction bs as [|b bs IH] using rev_ind; intros fuel acc Hmin Hfuel.
  - apply natBytes_0.
  - rewrite length_app in Hfuel. cbn [length] in Hfuel.
    destruct fuel as [|fuel]; [lia|].
    pose proof (AzureProofs.byteZ_range b) as Hb.
    pose proof (SetBytes_nonneg bs) as Hbs.
    assert (Hnz : big.SetBytes (bs ++ [b]) <> 0).
    { intros H0. apply (noLeadingZero_SetBytes_0 _ Hmin) in H0.
      by destruct bs. }
    cbn [big.natBytes]. destruct (Z.eqb_spec (big.SetBytes (bs ++ [b])) 0);
      [done|].
    rewrite SetBytes_snoc.
    replace ((big.SetBytes bs * 256 + byteZ b) / 256) with (big.SetBytes bs)
      by (apply Z.div_unique with (r := byteZ b); lia).
    rewrite (Base64Proofs.Zbyte_of_mod _ b).
    + rewrite IH by (eauto using noLeadingZero_snoc; lia).
      by rewrite <- app_assoc.
    + symmetry. apply Z.mod_unique with (q := big.SetBytes bs); lia.
Qed.

(** [x.Bytes()] of the integer read from a byte string is the byte
    string without its leading zero bytes. *)
Lemma Bytes_SetBytes (bs : bytes) :
  big.Bytes (big.SetBytes bs) = stripLeadingZeros bs.
Proof.
  rewrite <- SetBytes_strip.
  pose proof (noLeadingZero_strip bs) as Hmin.
  generalize dependent (stripLeadingZeros bs). clear bs. intros bs Hmin.
  unfold big.Bytes. rewrite Z.abs_eq by apply SetBytes_nonneg.
  rewrite natBytes_SetBytes; [apply app_nil_r | assumption |].
  destruct bs as [|b bs]; [cbn; lia|].
  pose proof (SetBytes_lower b bs Hmin) as Hlow.
  assert (Hpos : 0 < 256 ^ Z.of_nat (length bs))
    by (apply Z.pow_pos_nonneg; lia).
  assert (Hlog : 8 * Z.of_nat (length bs) <= Z.log2 (big.SetBytes (b :: bs))).
  { apply Z.log2_le_pow2; [lia|].
    rewrite Z.pow_mul_r by lia. exact Hlow. }
  cbn [length]. lia.
Qed.

(** ** cryptobyte: what the builder writes, the reader reads *)

Lemma land_high_clear (z : Z) : 0 <= z < 128 -> Z.land z 128 = 0.
Proof.
  intros Hz. apply Z.bits_inj'. intros i Hi. rewrite Z.land_spec, Z.bits_0.
  change 128 with (2 ^ 7). rewrite Z.pow2_bits_eqb by lia.
  destruct (Z.eqb_spec 7 i) as [<-|]; [|apply andb_false_r].
  by rewrite (Base64Proofs.testbit_small z 7) by lia.
Qed.

Lemma lor_low (x y : Z) :
  0 <= x -> 0 <= y < 256 -> Z.lor (Z.shiftl x 8) y = x * 256 + y.
Proof.
  intros Hx Hy. rewrite Z.shiftl_mul_pow2 by lia.
  assert (Hland : Z.land (x * 2 ^ 8) y = 0).
  { apply Z.bits_inj'. intros i Hi. rewrite Z.land_spec, Z.bits_0.
    destruct (Z.lt_ge_cases i 8).
    - by rewrite Z.mul_pow2_bits_low by lia.
    - rewrite (Base64Proofs.testbit_small y 8) by lia. apply andb_false_r. }
  rewrite <- Z.lxor_lor, <- Z.add_nocarry_lxor by assumption. lia.
Qed.

(** One more byte of a big-endian [uint32] that still fits. *)
Lemma readUnsigned_step (acc : Z) (b : byte) :
  0 <= acc < 2 ^ 24 ->
  Z.lor (Z.shiftl acc 8 mod 2 ^ 32) (byteZ b) = acc * 256 + byteZ b.
Proof.
  intros Hacc. pose proof (AzureProofs.byteZ_range b).
  rewrite Z.mod_small by (rewrite Z.shiftl_mul_pow2; lia).
  apply lor_low; lia.
Qed.

Lemma SetBytes_upper (v : bytes) :
  big.SetBytes v < 256 ^ Z.of_nat (length v).
Proof.
  induction v as [|b v IH] using rev_ind; [cbn; lia|].
  rewrite SetBytes_snoc, length_app, Nat2Z.inj_add, Z.pow_add_r by lia.
  pose proof (AzureProofs.byteZ_range b). cbn [length].
  change (256 ^ Z.of_nat 1) with 256. lia.
Qed.

(** Up to four bytes, the [uint32] read is the big-endian value. *)
Lemma readUnsigned_SetBytes (v : bytes) :
  (length v <= 4)%nat -> cryptobyte.readUnsigned v = big.SetBytes v.
Proof.
  induction v as [|b v IH] using rev_ind; [reflexivity|].
  rewrite length_app. cbn [length]. intros Hlen.
  unfold cryptobyte.readUnsigned in *. rewrite fold_left_app.
  cbn [fold_left]. rewrite IH by lia. rewrite SetBytes_snoc.
  apply readUnsigned_step. split; [apply SetBytes_nonneg|].
  eapply Z.lt_le_trans; [apply SetBytes_upper|].
  change (2 ^ 24) with (256 ^ 3). apply Z.pow_le_mono_r; lia.
Qed.

(** The reader's view of a long-form length: [k] length octets that
    hold [len32]. *)
Lemma asn1Header_long (tag c : byte) (lenBytes body : bytes) (k len32 : Z) :
  (Z.land (byteZ tag) 0x1f =? 0x1f) = false ->
  Z.land (byteZ c) 0x80 <> 0 ->
  Z.land (byteZ c) 0x7f = k ->
  1 <= k <= 4 ->
  length lenBytes = Z.to_nat k ->
  cryptobyte.readUnsigned lenBytes = len32 ->
  128 <= len32 ->
  Z.shiftr len32 ((k - 1) * 8) <> 0 ->
  2 + k + len32 < 2 ^ 32 ->
  cryptobyte.asn1Header (tag :: c :: lenBytes ++ body)
  = Some (2 + k + len32, 2 + k).
Proof.
  intros Htag Hc Hk Hk14 Hlen Hread H128 Htop Hfit.
  unfold cryptobyte.asn1Header. rewrite Htag.
  destruct (Z.eqb_spec (Z.land (byteZ c) 128) 0) as [|_]; [contradiction|].
  cbv zeta. rewrite Hk.
  destruct (Z.eqb_spec k 0); [lia|].
  destruct (Z.ltb_spec 4 k); [lia|].
  destruct (Z.ltb_spec (Z.of_nat (length (tag :: c :: lenBytes ++ body)))
              (2 + k)) as [Hshort|_].
  { cbn [length] in Hshort. rewrite length_app in Hshort. lia. }
  cbn [orb].
  change (skipn 2 (tag :: c :: lenBytes ++ body)) with (lenBytes ++ body).
  rewrite <- Hlen, firstn_app, firstn_all, Nat.sub_diag, firstn_O, app_nil_r.
  rewrite Hread.
  destruct (Z.ltb_spec len32 128); [lia|].
  destruct (Z.eqb_spec (Z.shiftr len32 ((k - 1) * 8)) 0); [contradiction|].
  rewrite (Z.mod_small (2 + k + len32)) by lia.
  destruct (Z.ltb_spec (2 + k + len32) len32); [lia|]. reflexivity.
Qed.

Lemma shiftr_nonzero (z n : Z) : 0 <= n -> 2 ^ n <= z -> Z.shiftr z n <> 0.
Proof.
  intros Hn Hz. rewrite Z.shiftr_div_pow2 by lia.
  assert (0 < 2 ^ n) by (apply Z.pow_pos_nonneg; lia).
  assert (1 <= z / 2 ^ n) by (apply Z.div_le_lower_bound; lia). lia.
Qed.

Ltac length_octets :=
  rewrite ?byteZ_Zbyte, ?Z.shiftr_div_pow2 by lia;
  change (2 ^ 8) with 256; change (2 ^ 16) with 65536;
  change (2 ^ 24) with 16777216; change (2 ^ 32) with 4294967296.

(** The header the builder writes for [L] bytes of contents is read
    back as such. *)
Lemma asn1Header_built (tag : byte) (hdr body : bytes) (L : Z) :
  (Z.land (byteZ tag) 0x1f =? 0x1f) = false ->
  0 <= L -> L + 6 < 2 ^ 32 ->
  cryptobyte.asn1Length L = Some hdr ->
  cryptobyte.asn1Header (tag :: hdr ++ body)
  = Some (1 + Z.of_nat (length hdr) + L, 1 + Z.of_nat (length hdr)).
Proof.
  intros Htag HL0 HL. unfold cryptobyte.asn1Length.
  destruct (Z.ltb_spec 0xfffffffe L); [discriminate|].
  destruct (Z.ltb_spec 0xffffff L).
  { intros [= <-].
    apply (asn1Header_long tag x84
             [Zbyte (Z.shiftr L 24); Zbyte (Z.shiftr L 16);
              Zbyte (Z.shiftr L 8); Zbyte L] body 4 L Htag);
      [ intros Hx; vm_compute in Hx; discriminate Hx | reflexivity | lia
      | reflexivity | | lia | apply shiftr_nonzero; lia | lia ].
    rewrite readUnsigned_SetBytes by (cbn [length]; lia).
    unfold big.SetBytes. cbn [fold_left].
    length_octets. Z.div_mod_to_equations; lia. }
  destruct (Z.ltb_spec 0xffff L).
  { intros [= <-].
    apply (asn1Header_long tag x83
             [Zbyte (Z.shiftr L 16); Zbyte (Z.shiftr L 8); Zbyte L]
             body 3 L Htag);
      [ intros Hx; vm_compute in Hx; discriminate Hx | reflexivity | lia
      | reflexivity | | lia | apply shiftr_nonzero; lia | lia ].
    rewrite readUnsigned_SetBytes by (cbn [length]; lia).
    unfold big.SetBytes. cbn [fold_left].
    length_octets. Z.div_mod_to_equations; lia. }
  destruct (Z.ltb_spec 0xff L).
  { intros [= <-].
    apply (asn1Header_long tag x82 [Zbyte (Z.shiftr L 8); Zbyte L] body 2 L
             Htag);
      [ intros Hx; vm_compute in Hx; discriminate Hx | reflexivity | lia
      | reflexivity | | lia | apply shiftr_nonzero; lia | lia ].
    rewrite readUnsigned_SetBytes by (cbn [length]; lia).
    unfold big.SetBytes. cbn [fold_left].
    length_octets. Z.div_mod_to_equations; lia. }
  destruct (Z.ltb_spec 0x7f L).
  { intros [= <-].
    apply (asn1Header_long tag x81 [Zbyte L] body 1 L Htag);
      [ intros Hx; vm_compute in Hx; discriminate Hx | reflexivity | lia
      | reflexivity | | lia | apply shiftr_nonzero; lia | lia ].
    rewrite readUnsigned_SetBytes by (cbn [length]; lia).
    unfold big.SetBytes. cbn [fold_left].
    length_octets. Z.div_mod_to_equations; lia. }
  intros [= <-]. cbn [app length].
  unfold cryptobyte.asn1Header. rewrite Htag.
  rewrite byteZ_Zbyte_small by lia. rewrite land_high_clear by lia.
  cbn [Z.eqb]. f_equal. f_equal; lia.
Qed.

Lemma asn1Length_Some (L : Z) :
  L <= 0xfffffffe ->
  exists hdr, cryptobyte.asn1Length L = Some hdr /\ (length hdr <= 5)%nat.
Proof.
  intros HL. unfold cryptobyte.asn1Length.
  destruct (Z.ltb_spec 0xfffffffe L); [lia|].
  repeat (destruct (_ <? L); [eexists; split; [reflexivity | cbn; lia]|]).
  eexists; split; [reflexivity | cbn; lia].
Qed.

(** An element as the builder lays it out, followed by anything: the
    reader takes the element off and leaves what follows. *)
Lemma readASN1_built (tag : byte) (hdr contents rest : bytes) :
  (Z.land (byteZ tag) 0x1f =? 0x1f) = false ->
  Z.of_nat (length contents) + 6 < 2 ^ 32 ->
  cryptobyte.asn1Length (Z.of_nat (length contents)) = Some hdr ->
  cryptobyte.readASN1 (tag :: hdr ++ contents ++ rest)
  = Some (tag, contents, rest).
Proof.
  intros Htag Hfit Hlen.
  rewrite AzureProofs.readASN1_cons.
  rewrite (asn1Header_built tag hdr (contents ++ rest) _ Htag
             (Nat2Z.is_nonneg _) Hfit Hlen).
  assert (E : tag :: hdr ++ contents ++ rest
              = (tag :: hdr ++ contents) ++ rest)
    by (cbn [app]; by rewrite <- app_assoc).
  assert (Hn : Z.to_nat (1 + Z.of_nat (length hdr)
                         + Z.of_nat (length contents))
               = length (tag :: hdr ++ contents))
    by (cbn [length]; rewrite length_app; lia).
  assert (Hh : Z.to_nat (1 + Z.of_nat (length hdr)) = length (tag :: hdr))
    by (cbn [length]; lia).
  destruct (Z.ltb_spec (Z.of_nat (length (tag :: hdr ++ contents ++ rest)))
              (1 + Z.of_nat (length hdr) + Z.of_nat (length contents)))
    as [Hshort|_].
  { cbn [length] in Hshort. rewrite !length_app in Hshort. lia. }
  rewrite Hn, Hh, E, take_app_length, drop_app_length.
  change (tag :: hdr ++ contents) with ((tag :: hdr) ++ contents).
  by rewrite drop_app_length.
Qed.

Lemma ReadASN1_built (tag : byte) (hdr contents rest : bytes) :
  (Z.land (byteZ tag) 0x1f =? 0x1f) = false ->
  Z.of_nat (length contents) + 6 < 2 ^ 32 ->
  cryptobyte.asn1Length (Z.of_nat (length contents)) = Some hdr ->
  cryptobyte.ReadASN1 (tag :: hdr ++ contents ++ rest) tag
  = Some (contents, rest).
Proof.
  intros Htag Hfit Hlen. unfold cryptobyte.ReadASN1.
  by rewrite (readASN1_built tag hdr contents rest Htag Hfit Hlen),
    Z.eqb_refl.
Qed.

(** The top bit of a byte. *)
Lemma top_bit (b : byte) :
  (Z.land (byteZ b) 0x80 = 0 \/ Z.land (byteZ b) 0x80 = 0x80)
  /\ (byteZ b = 0xff -> Z.land (byteZ b) 0x80 = 0x80).
Proof. destruct b; vm_compute; split; auto; discriminate. Qed.

(** What [AddASN1BigInt] writes as contents for the integer read from
    a byte string without leading zero. *)
Lemma bigIntContents_SetBytes (bs : bytes) :
  noLeadingZero bs ->
  cryptobyte.bigIntContents (big.SetBytes bs) = integerContents bs.
Proof.
  intros Hmin. unfold cryptobyte.bigIntContents, big.Sign.
  destruct bs as [|b0 tl]; [reflexivity|].
  pose proof (SetBytes_lower b0 tl Hmin) as Hlow.
  assert (Hpos : 0 < 256 ^ Z.of_nat (length tl))
    by (apply Z.pow_pos_nonneg; lia).
  rewrite Z.sgn_pos by lia. cbn [Z.ltb Z.eqb Z.compare].
  cbv zeta. rewrite Bytes_SetBytes, (strip_noLeadingZero _ Hmin).
  cbn [integerContents]. by destruct (Z.land (byteZ b0) 128 =? 0).
Qed.

(** The contents pass the reader's check for a shortest-form integer,
    are read as non-negative, and have the value of the byte string. *)
Lemma integerContents_read (bs : bytes) :
  noLeadingZero bs ->
  cryptobyte.checkASN1Integer (integerContents bs) = true
  /\ big.SetBytes (integerContents bs) = big.SetBytes bs
  /\ exists b0 tl, integerContents bs = b0 :: tl
                   /\ (Z.land (byteZ b0) 0x80 =? 0x80) = false.
Proof.
  intros Hmin. destruct bs as [|b0 tl].
  { split; [reflexivity|]. split; [reflexivity|]. by exists x00, []. }
  cbn [integerContents noLeadingZero] in *.
  destruct (top_bit b0) as [[Htop|Htop] Hff].
  - rewrite Htop. cbn [Z.eqb].
    split; [|split; [reflexivity | exists b0, tl; by rewrite Htop]].
    destruct tl as [|b1 tl]; [reflexivity|]. cbn [cryptobyte.checkASN1Integer].
    destruct (Z.eqb_spec (byteZ b0) 0); [contradiction|].
    destruct (Z.eqb_spec (byteZ b0) 255) as [E|_]; [|reflexivity].
    rewrite (Hff E) in Htop. discriminate Htop.
  - rewrite Htop. cbn [Z.eqb Pos.eqb].
    split; [|split].
    + cbn [cryptobyte.checkASN1Integer]. rewrite Htop. reflexivity.
    + rewrite (SetBytes_cons x00). change (byteZ x00) with 0. lia.
    + by exists x00, (b0 :: tl).
Qed.

(** An INTEGER element as the builder lays it out is read back as the
    integer it was written for. *)
Lemma ReadASN1Integer_built (bs hdr rest : bytes) :
  noLeadingZero bs ->
  Z.of_nat (length (integerContents bs)) + 6 < 2 ^ 32 ->
  cryptobyte.asn1Length (Z.of_nat (length (integerContents bs))) = Some hdr ->
  cryptobyte.ReadASN1Integer
    (asn1.INTEGER :: hdr ++ integerContents bs ++ rest)
  = Some (big.SetBytes bs, rest).
Proof.
  intros Hmin Hfit Hlen. unfold cryptobyte.ReadASN1Integer.
  rewrite (ReadASN1_built asn1.INTEGER hdr _ rest eq_refl Hfit Hlen).
  destruct (integerContents_read bs Hmin)
    as (Hcheck & Hval & b0 & tl & E & Hb0).
  rewrite Hcheck, <- Hval, E, Hb0. reflexivity.
Qed.

Lemma AddASN1_built (tag : byte) (f : cryptobyte.Builder -> cryptobyte.Builder)
    (b : cryptobyte.Builder) (contents hdr : bytes) :
  cryptobyte.err b = None ->
  (Z.land (byteZ tag) 0x1f =? 0x1f) = false ->
  f cryptobyte.newBuilder = cryptobyte.mkBuilder None contents ->
  cryptobyte.asn1Length (Z.of_nat (length contents)) = Some hdr ->
  cryptobyte.AddASN1 tag f b
  = cryptobyte.mkBuilder None (cryptobyte.result b ++ tag :: hdr ++ contents).
Proof.
  intros Hb Htag Hf Hlen. unfold cryptobyte.AddASN1.
  rewrite Hb, Htag. cbv zeta. rewrite Hf.
  cbn [cryptobyte.err cryptobyte.result].
  by rewrite Hlen.
Qed.

Lemma AddASN1BigInt_built (bs hdr : bytes) (b : cryptobyte.Builder) :
  noLeadingZero bs ->
  cryptobyte.err b = None ->
  cryptobyte.asn1Length (Z.of_nat (length (integerContents bs))) = Some hdr ->
  cryptobyte.AddASN1BigInt (big.SetBytes bs) b
  = cryptobyte.mkBuilder None
      (cryptobyte.result b ++ asn1.INTEGER :: hdr ++ integerContents bs).
Proof.
  intros Hmin Hb Hlen. unfold cryptobyte.AddASN1BigInt. rewrite Hb.
  apply AddASN1_built; [assumption | reflexivity | | assumption].
  by rewrite (bigIntContents_SetBytes bs Hmin).
Qed.

Lemma strip_length (bs : bytes) :
  (length (stripLeadingZeros bs) <= length bs)%nat.
Proof.
  induction bs as [|b bs IH]; [done|]. cbn [stripLeadingZeros].
  destruct (byteZ b =? 0); cbn [length]; lia.
Qed.

Lemma integerContents_length (bs : bytes) :
  (length (integerContents bs) <= length bs + 1)%nat.
Proof.
  destruct bs as [|b0 tl]; [cbn; lia|]. cbn [integerContents].
  destruct (_ =? 0); cbn [length]; lia.
Qed.

Lemma halves_length (rawSig : bytes) :
  (length (firstHalf rawSig) + length (secondHalf rawSig))%nat
  = length rawSig.
Proof.
  unfold firstHalf, secondHalf.
  by rewrite <- length_app, firstn_skipn.
Qed.

(** ** The two conversions of the signer *)

(** The DER bytes that SignMessage makes of a raw signature, and how
    VerifySignature's parse reads them. *)
Lemma derFromRaw_parse (rawSig : bytes) :
  Z.of_nat (length rawSig) < 2 ^ 31 ->
  exists der,
    derFromRaw rawSig = Ok der
    /\ parseSignature der
       = Some (big.SetBytes (firstHalf rawSig),
               big.SetBytes (secondHalf rawSig)).
Proof.
  intros Hbound.
  set (r1 := stripLeadingZeros (firstHalf rawSig)).
  set (s1 := stripLeadingZeros (secondHalf rawSig)).
  pose proof (halves_length rawSig) as Hhalves.
  pose proof (strip_length (firstHalf rawSig)) as Hr1. fold r1 in Hr1.
  pose proof (strip_length (secondHalf rawSig)) as Hs1. fold s1 in Hs1.
  pose proof (integerContents_length r1) as Hcr.
  pose proof (integerContents_length s1) as Hcs.
  pose proof (noLeadingZero_strip (firstHalf rawSig)) as Hminr.
  fold r1 in Hminr.
  pose proof (noLeadingZero_strip (secondHalf rawSig)) as Hmins.
  fold s1 in Hmins.
  change (2 ^ 31) with 2147483648 in Hbound.
  destruct (asn1Length_Some (Z.of_nat (length (integerContents r1))))
    as (hdrR & HlenR & HhdrR); [lia|].
  destruct (asn1Length_Some (Z.of_nat (length (integerContents s1))))
    as (hdrS & HlenS & HhdrS); [lia|].
  set (inner := (asn1.INTEGER :: hdrR ++ integerContents r1)
                ++ (asn1.INTEGER :: hdrS ++ integerContents s1)).
  assert (Hinner : Z.of_nat (length inner) + 6 < 2 ^ 32).
  { unfold inner. rewrite length_app. cbn [length]. rewrite !length_app.
    change (2 ^ 32) with 4294967296. lia. }
  destruct (asn1Length_Some (Z.of_nat (length inner)))
    as (hdr & Hlen & Hhdr); [change (2 ^ 32) with 4294967296 in Hinner; lia|].
  exists (asn1.SEQUENCE :: hdr ++ inner). split.
  - unfold derFromRaw. cbv zeta.
    change (firstn (length rawSig / 2) rawSig) with (firstHalf rawSig).
    change (skipn (length rawSig / 2) rawSig) with (secondHalf rawSig).
    rewrite <- (SetBytes_strip (firstHalf rawSig)),
            <- (SetBytes_strip (secondHalf rawSig)).
    fold r1 s1.
    rewrite (AddASN1_built asn1.SEQUENCE _ cryptobyte.newBuilder inner hdr
               eq_refl eq_refl); [reflexivity| |exact Hlen].
    rewrite (AddASN1BigInt_built r1 hdrR cryptobyte.newBuilder Hminr eq_refl
               HlenR).
    by rewrite (AddASN1BigInt_built s1 hdrS
                  (cryptobyte.mkBuilder None
                     (cryptobyte.result cryptobyte.newBuilder
                      ++ asn1.INTEGER :: hdrR ++ integerContents r1))
                  Hmins eq_refl HlenS).
  - unfold parseSignature.
    rewrite <- (app_nil_r inner) at 1.
    rewrite (ReadASN1_built asn1.SEQUENCE hdr inner [] eq_refl Hinner Hlen).
    cbn [cryptobyte.Empty negb].
    assert (HfitR : Z.of_nat (length (integerContents r1)) + 6 < 2 ^ 32)
      by (change (2 ^ 32) with 4294967296; lia).
    assert (HfitS : Z.of_nat (length (integerContents s1)) + 6 < 2 ^ 32)
      by (change (2 ^ 32) with 4294967296; lia).
    assert (E : inner
                = asn1.INTEGER :: hdrR ++ integerContents r1
                    ++ (asn1.INTEGER :: hdrS ++ integerContents s1 ++ []))
      by (unfold inner; cbn [app]; by rewrite <- app_assoc, app_nil_r).
    rewrite E.
    rewrite (ReadASN1Integer_built r1 hdrR _ Hminr HfitR HlenR).
    rewrite (ReadASN1Integer_built s1 hdrS [] Hmins HfitS HlenS).
    cbn [cryptobyte.Empty negb]. unfold r1, s1. by rewrite !SetBytes_strip.
Qed.

Lemma strip_same_length (bs : bytes) :
  length (stripLeadingZeros bs) = length bs -> noLeadingZero bs.
Proof.
  destruct bs as [|b tl]; [done|]. cbn [stripLeadingZeros noLeadingZero].
  destruct (Z.eqb_spec (byteZ b) 0); [|done].
  pose proof (strip_length tl). cbn [length]. lia.
Qed.

Lemma raw_der_back (rawSig : bytes) :
  Z.of_nat (length rawSig) < 2 ^ 31 ->
  exists der,
    derFromRaw rawSig = Ok der
    /\ rawFromDER der
       = Some (stripLeadingZeros (firstHalf rawSig)
               ++ stripLeadingZeros (secondHalf rawSig)).
Proof.
  intros Hbound.
  destruct (derFromRaw_parse rawSig Hbound) as (der & Hder & Hparse).
  exists der. split; [exact Hder|].
  unfold rawFromDER. rewrite Hparse. by rewrite !Bytes_SetBytes.
Qed.

(** X11: a raw signature shorter than 2^31 bytes is turned into DER
    bytes without error, and turning these back gives each half of the
    raw signature without its leading zero bytes, the first half then
    the second. The result is the raw signature itself exactly when
    neither half begins with a zero byte. *)
Theorem raw_to_DER_and_back (rawSig : bytes) :
  Z.of_nat (length rawSig) < 2 ^ 31 ->
  exists der,
    derFromRaw rawSig = Ok der
    /\ rawFromDER der
       = Some (stripLeadingZeros (firstHalf rawSig)
               ++ stripLeadingZeros (secondHalf rawSig))
    /\ (rawFromDER der = Some rawSig
        <-> noLeadingZero (firstHalf rawSig)
            /\ noLeadingZero (secondHalf rawSig)).
Proof.
  intros Hbound.
  destruct (raw_der_back rawSig Hbound) as (der & Hder & Hback).
  exists der. split; [exact Hder|].
  split; [exact Hback|]. rewrite Hback. split.
  - intros [= E].
    pose proof (strip_length (firstHalf rawSig)) as H1.
    pose proof (strip_length (secondHalf rawSig)) as H2.
    pose proof (halves_length rawSig) as Hh.
    apply (f_equal (@length byte)) in E. rewrite length_app in E.
    split; apply strip_same_length; lia.
  - intros [H1 H2]. rewrite !strip_noLeadingZero by assumption.
    unfold firstHalf, secondHalf. by rewrite firstn_skipn.
Qed.

Section Signer.

Variable hashSum : crypto.Hash -> bytes -> bytes.

(** X12: a signature that SignMessage returned is accepted by the parse
    of VerifySignature: whenever the digest can be computed, the backend
    is asked to verify, with the halves of the raw signature it had
    given, each without its leading zero bytes. The backend's raw
    signatures are taken to be shorter than 2^31 bytes. *)
Theorem signed_then_verified (a : SignerVerifier) message opts der calls :
  (forall ctx digest rawSig,
     sign (client a) ctx digest = Ok rawSig ->
     Z.of_nat (length rawSig) < 2 ^ 31) ->
  SignMessage hashSum a message opts = (Ok der, calls) ->
  exists digest rawSig,
    calls = [CallSign Background digest]
    /\ sign (client a) Background digest = Ok rawSig
    /\ forall vmessage vopts vdigest h,
         ComputeDigestForVerifying hashSum vmessage (hashFunc a)
           azureSupportedHashFuncs vopts = Ok (vdigest, h) ->
         let rawBack := stripLeadingZeros (firstHalf rawSig)
                        ++ stripLeadingZeros (secondHalf rawSig) in
         VerifySignature hashSum a (ReaderOf der) vmessage vopts
         = (verify (client a) Background rawBack vdigest,
            [CallVerify Background rawBack vdigest]).
Proof.
  intros Hbound. unfold SignMessage.
  destruct (ComputeDigestForSigning _ _ _ _ _) as [[digest h0]|e];
    [|discriminate].
  destruct (sign (client a) Background digest) as [rawSig|e] eqn:Hsign;
    [|discriminate].
  destruct (raw_der_back rawSig (Hbound _ _ _ Hsign))
    as (der' & Hder & Hback).
  rewrite Hder. intros [= <- <-]. exists digest, rawSig.
  split; [reflexivity|]. split; [exact Hsign|].
  intros vmessage vopts vdigest h Hdigest. cbv zeta.
  unfold VerifySignature. rewrite Hdigest. cbn [ReadAll].
  by rewrite Hback.
Qed.

End Signer.

Lemma raw_to_DER_and_back_witness :
  exists der,
    derFromRaw rawExample = Ok der
    /\ rawFromDER der
       = Some (stripLeadingZeros (firstHalf rawExample)
               ++ stripLeadingZeros (secondHalf rawExample))
    /\ (rawFromDER der = Some rawExample
        <-> noLeadingZero (firstHalf rawExample)
            /\ noLeadingZero (secondHalf rawExample)).
Proof. apply (raw_to_DER_and_back rawExample). vm_compute. reflexivity. Defined.

Lemma signed_then_verified_witness :
  let a := exampleSigner rawExample crypto.SHA256 in
  exists digest rawSig,
    [CallSign Background (exampleHash crypto.SHA256 [x61])]
    = [CallSign Background digest]
    /\ sign (client a) Background digest = Ok rawSig
    /\ forall vmessage vopts vdigest h,
         ComputeDigestForVerifying exampleHash vmessage (hashFunc a)
           azureSupportedHashFuncs vopts = Ok (vdigest, h) ->
         let rawBack := stripLeadingZeros (firstHalf rawSig)
                        ++ stripLeadingZeros (secondHalf rawSig) in
         VerifySignature exampleHash a (ReaderOf derExample) vmessage vopts
         = (verify (client a) Background rawBack vdigest,
            [CallVerify Background rawBack vdigest]).
Proof.
  intros a.
  apply (signed_then_verified exampleHash a (Some (ReaderOf [x61])) []
           derExample [CallSign Background (exampleHash crypto.SHA256 [x61])]).
  - intros ctx digest rawSig [= <-]. vm_compute. reflexivity.
  - vm_compute. reflexivity.
Defined.

End DerProofs.

(** * More on the signer: construction, hashes, contexts *)

Module SignerProofs.

Import Azure AzureSpec.

Section Signer.

Variable hashSum : crypto.Hash -> bytes -> bytes.
Variable newAzureKMS : Context -> string -> Result Error azureVaultClient.

Local Abbreviation LoadSignerVerifier := (LoadSignerVerifier newAzureKMS).
Local Abbreviation SignMessage := (SignMessage hashSum).
Local Abbreviation VerifySignature := (VerifySignature hashSum).

Lemma accepted_hash (h : crypto.Hash) :
  (h =? 0)%N || (h =? crypto.SHA224)%N || (h =? crypto.SHA256)%N
  || (h =? crypto.SHA384)%N || (h =? crypto.SHA512)%N = true
  <-> In h loadableHashFuncs.
Proof.
  unfold loadableHashFuncs. cbn [In].
  rewrite !orb_true_iff, !N.eqb_eq. intuition congruence.
Qed.

(** X13: LoadSignerVerifier first builds the client, with the context
    and the key reference it was given, and an error of that step is
    returned whatever the hash is. With a client, it returns a signer
    that holds the context, the hash as given and the client exactly
    when the hash is zero, SHA-224, SHA-256, SHA-384 or SHA-512, and the
    hash-not-supported error otherwise. *)
Theorem LoadSignerVerifier_outcome ctx referenceStr (h : crypto.Hash) :
  (forall e, newAzureKMS ctx referenceStr = Err e ->
             LoadSignerVerifier ctx referenceStr h = Err e)
  /\ (forall c, newAzureKMS ctx referenceStr = Ok c ->
        (In h loadableHashFuncs ->
         LoadSignerVerifier ctx referenceStr h
         = Ok {| defaultCtx := ctx; hashFunc := h; client := c |})
        /\ (~ In h loadableHashFuncs ->
            LoadSignerVerifier ctx referenceStr h = Err ErrHashNotSupported)).
Proof.
  unfold Azure.LoadSignerVerifier. split.
  - by intros e ->.
  - intros c ->. pose proof (accepted_hash h) as Hacc.
    destruct (_ || _); split; intros Hin; try reflexivity.
    + exfalso. apply Hin, Hacc. reflexivity.
    + apply Hacc in Hin. discriminate Hin.
Qed.

(** The hash that a list of options leaves, starting from [h]. *)
Lemma unsupported_digest message (h : crypto.Hash) opts :
  fold_left (fun h o => ApplyCryptoSignerOpts o h) opts h = h ->
  h <> crypto.SHA256 ->
  ComputeDigest hashSum message h azureSupportedHashFuncs opts
  = Err (ErrUnsupportedHashAlgorithm h).
Proof.
  intros Hopts Hh. unfold ComputeDigest. rewrite Hopts.
  unfold isSupportedAlg, azureSupportedHashFuncs. cbn [existsb].
  destruct (N.eqb_spec h crypto.SHA256); [contradiction|]. reflexivity.
Qed.

(** X14: a signer that LoadSignerVerifier returned for a hash other
    than SHA-256 cannot sign or verify with that hash: when the options
    of the call name no other hash, SignMessage and VerifySignature stop
    with the unsupported-hash error before any call to the backend. *)
Theorem only_SHA256_is_usable ctx referenceStr (h : crypto.Hash) a :
  LoadSignerVerifier ctx referenceStr h = Ok a ->
  h <> crypto.SHA256 ->
  forall message opts,
    fold_left (fun h o => ApplyCryptoSignerOpts o h) opts h = h ->
    SignMessage a message opts = (Err (ErrUnsupportedHashAlgorithm h), [])
    /\ forall sig,
         VerifySignature a sig message opts
         = (Some (ErrUnsupportedHashAlgorithm h), []).
Proof.
  unfold Azure.LoadSignerVerifier.
  destruct (newAzureKMS ctx referenceStr) as [c|e]; [|discriminate].
  destruct (_ || _); [|discriminate].
  intros [= <-] Hh message opts Hopts. cbn [hashFunc]. split.
  - unfold Azure.SignMessage, ComputeDigestForSigning. cbn [hashFunc].
    rewrite Hopts. by rewrite (unsupported_digest message h opts Hopts Hh).
  - intros sig. unfold Azure.VerifySignature, ComputeDigestForVerifying.
    cbn [hashFunc].
    by rewrite (unsupported_digest message h opts Hopts Hh).
Qed.

Lemma SignMessage_context a message opts :
  Forall (fun call => kmsCallContext call = Some Background)
    (snd (SignMessage a message opts)).
Proof.
  unfold Azure.SignMessage.
  destruct (ComputeDigestForSigning _ _ _ _ _) as [[digest h]|e];
    [|constructor].
  destruct (sign (client a) Background digest); cbn [snd];
    by repeat constructor.
Qed.

(** X15: SignMessage never hands a caller's context to the backend:
    every call it makes carries context.Background(), whatever the
    options; and the context argument of Sign is dropped: Sign gives
    what SignMessage gives for the payload with no option. *)
Theorem SignMessage_uses_Background :
  (forall a message opts,
     Forall (fun call => kmsCallContext call = Some Background)
       (snd (SignMessage a message opts)))
  /\ (forall a ctx payload,
        Sign hashSum a ctx payload
        = SignMessage a (Some (ReaderOf payload)) []).
Proof.
  split; [exact SignMessage_context | reflexivity].
Qed.

(** X16: the crypto.Signer that CryptoSigner returns signs the digest it
    is given as SignMessage does with that digest as an option and no
    message: the context given to CryptoSigner and the random source
    given to Sign play no part, a nil opts leaves the signer's own hash,
    and every call to the backend carries context.Background(). Public
    hands a backend error to errFunc when one was given, and returns no
    key then. *)
Theorem CryptoSigner_signs_digests a ctx handler :
  exists csw,
    CryptoSigner a ctx handler = Ok (csw, hashFunc a)
    /\ (forall rand digest,
          cryptoSignerWrapper_Sign hashSum csw rand digest None
          = SignMessage a None [WithDigest digest])
    /\ (forall rand digest h,
          cryptoSignerWrapper_Sign hashSum csw rand digest (Some h)
          = SignMessage a None [WithDigest digest; WithCryptoSignerOpts h])
    /\ (forall rand digest opts,
          Forall (fun call => kmsCallContext call = Some Background)
            (snd (cryptoSignerWrapper_Sign hashSum csw rand digest opts)))
    /\ (forall e, public (client a) = Err e ->
          cryptoSignerWrapper_Public csw
          = (None, if handler then [e] else [], [CallPublic])).
Proof.
  eexists. split; [reflexivity|].
  split; [reflexivity|]. split; [reflexivity|]. split.
  - intros rand digest opts. unfold cryptoSignerWrapper_Sign.
    apply SignMessage_context.
  - intros e He. unfold cryptoSignerWrapper_Public, PublicKey_.
    cbn [sv errFunc]. by rewrite He.
Qed.

End Signer.

Lemma only_SHA256_is_usable_witness :
  let a := exampleSigner rawExample crypto.SHA384 in
  SignMessage exampleHash a (Some (ReaderOf [x61])) []
  = (Err (ErrUnsupportedHashAlgorithm crypto.SHA384), [])
  /\ forall sig,
       VerifySignature exampleHash a sig (Some (ReaderOf [x61])) []
       = (Some (ErrUnsupportedHashAlgorithm crypto.SHA384), []).
Proof.
  intros a.
  apply (only_SHA256_is_usable exampleHash (cannedKMS rawExample [])
           Background "key" crypto.SHA384 a);
    [reflexivity | discriminate | reflexivity].
Defined.

End SignerProofs.
